(** * Homelab infrastructure: the Caddy service manager and the NetBox
      discovery agent

    A shallow embedding of [scripts/caddy-service-manager.py] and of
    [configs/netbox/discovery-scripts/discovery-agent.py].

    Python [str] values are modelled as [string]; host names are DNS names,
    so only the ASCII letters have a lower-case form.  A [dict] whose
    iteration order matters is an association list, the file system is a
    finite map from paths to file contents, and the outcomes of the external
    collaborators (NetBox, the [caddy] binary, the clock, [tempfile]) are
    inputs of the functions that consult them.  Copying and unlinking a file
    are taken to succeed; writing the Caddyfile may raise. *)

From Stdlib Require Import ZArith Ascii DecimalString Lia.
From stdpp Require Import base option list strings gmap.

Local Open Scope Z_scope.

(** ** Python string operations *)

Module Str.

Definition nl : string := String "010"%char EmptyString.
Definition dq : string := String "034"%char EmptyString.

(** [c.lower()] on an ASCII character. *)
Definition lower_char (c : ascii) : ascii :=
  let n := nat_of_ascii c in
  if ((65 <=? n) && (n <=? 90))%nat then ascii_of_nat (n + 32) else c.

(** [s.lower()] *)
Fixpoint lower (s : string) : string :=
  match s with
  | EmptyString => EmptyString
  | String c s' => String (lower_char c) (lower s')
  end.

(** [s.startswith(p)] *)
Fixpoint startswith (p s : string) : bool :=
  match p, s with
  | EmptyString, _ => true
  | String _ _, EmptyString => false
  | String a p', String b s' => if Ascii.eqb a b then startswith p' s' else false
  end.

(** [sub in s] *)
Fixpoint contains (sub s : string) : bool :=
  startswith sub s ||
  match s with
  | EmptyString => false
  | String _ s' => contains sub s'
  end.

Fixpoint rev_onto (s acc : string) : string :=
  match s with
  | EmptyString => acc
  | String c s' => rev_onto s' (String c acc)
  end.

Definition rev (s : string) : string := rev_onto s EmptyString.

(** [s.endswith(p)] *)
Definition endswith (p s : string) : bool := startswith (rev p) (rev s).

(** [s.split(c)[0]]: the part of [s] before the first [c]. *)
Fixpoint before_char (c : ascii) (s : string) : string :=
  match s with
  | EmptyString => EmptyString
  | String a s' => if Ascii.eqb a c then EmptyString else String a (before_char c s')
  end.

(** [s.replace(a, b)] for single characters. *)
Fixpoint replace_char (a b : ascii) (s : string) : string :=
  match s with
  | EmptyString => EmptyString
  | String x s' => String (if Ascii.eqb x a then b else x) (replace_char a b s')
  end.

(** [sep.join(l)] *)
Fixpoint join (sep : string) (l : list string) : string :=
  match l with
  | [] => EmptyString
  | [x] => x
  | x :: rest => x +:+ sep +:+ join sep rest
  end.

(** [c.isspace()] on an ASCII character. *)
Definition is_space (c : ascii) : bool :=
  let n := nat_of_ascii c in
  ((9 <=? n) && (n <=? 13) || (28 <=? n) && (n <=? 32))%nat.

Fixpoint lstrip (s : string) : string :=
  match s with
  | EmptyString => EmptyString
  | String c s' => if is_space c then lstrip s' else s
  end.

(** [s.strip()] *)
Definition strip (s : string) : string := rev (lstrip (rev (lstrip s))).

(** [s[:n]] *)
Definition take (n : nat) (s : string) : string := String.substring 0 n s.

(** [str(n)] for an [int]. *)
Definition of_int (n : Z) : string := NilZero.string_of_int (Z.to_int n).

(** [kw.get(k)] on the keyword arguments of [format]. *)
Fixpoint kw_get (kw : list (string * string)) (k : string) : option string :=
  match kw with
  | [] => None
  | (k', v) :: rest => if String.eqb k' k then Some v else kw_get rest k
  end.

(** [template.format] with keyword arguments [kw], for templates whose
    replacement fields are plain names: [{{] and [}}] are the escaped
    braces, [{name}] is replaced by [kw[name]].  [None] stands for the
    [ValueError] or [KeyError] Python raises on a lone brace or an unknown
    name.  [field] holds the reversed name of the field being read. *)
Fixpoint format_from (field : option string) (kw : list (string * string))
         (s : string) : option string :=
  match s with
  | EmptyString =>
      match field with None => Some EmptyString | Some _ => None end
  | String c rest =>
      match field with
      | Some name =>
          if Ascii.eqb c "}"%char then
            match kw_get kw (rev name), format_from None kw rest with
            | Some v, Some r => Some (v +:+ r)
            | _, _ => None
            end
          else format_from (Some (String c name)) kw rest
      | None =>
          if Ascii.eqb c "{"%char then
            match rest with
            | String "{"%char rest' =>
                String "{"%char <$> format_from None kw rest'
            | _ => format_from (Some EmptyString) kw rest
            end
          else if Ascii.eqb c "}"%char then
            match rest with
            | String "}"%char rest' =>
                String "}"%char <$> format_from None kw rest'
            | _ => None
            end
          else String c <$> format_from None kw rest
      end
  end.

Definition format (template : string) (kw : list (string * string)) : option string :=
  format_from None kw template.

End Str.

(** ** The world the scripts act on *)

Inductive Level := DEBUG | INFO | WARNING | ERROR.

(** The outcome of [subprocess.run(..., timeout=30)]: the process exits with
    a return code and its standard error, or the call raises
    ([TimeoutExpired], [FileNotFoundError], ...). *)
Inductive Run :=
| Completed (returncode : Z) (stderr : string)
| RunRaised (exc : string).

(** The outcome of [Path.write_text]: the text is written, or the call
    raises; [left_in_file] is what a failed call left at the path ([None]
    when the file was not opened at all). *)
Inductive WriteResult :=
| Written
| WriteRaised (exc : string) (left_in_file : option string).

(** Whether the process ran to the end and exited with status 0. *)
Definition run_ok (r : Run) : bool :=
  match r with
  | Completed returncode _ => returncode =? 0
  | RunRaised _ => false
  end.

(** [pathlib]'s [dir / name]. *)
Definition path_join (dir name : string) : string :=
  if Str.startswith "/" name then name else dir +:+ "/" +:+ name.

(** ** scripts/caddy-service-manager.py *)

Module Caddy.

(** The messages the manager logs, one constructor per [logger] call. *)
Inductive Msg :=
| NetboxGetFailed (status_code : Z)
| NetboxRetrieved (n : nat)
| NetboxError (exc : string)
| BackedUp (backup_file : string)
| ConfigValid
| ConfigInvalid (stderr : string)
| ValidateError (exc : string)
| ReloadOk
| ReloadFailed (stderr : string)
| ReloadError (exc : string)
| UpdateStarting
| NoServicesFound
| ValidationFailedAborting
| CaddyfileUpdated (n : nat)
| UpdatedSuccessfully
| ConfiguredServices
| ConfiguredService (hostname ip : string) (port : Z)
| ReloadFailedRestoredBackup
| UpdateError (exc : string)
| RestoredBackupAfterError
| AddingManually (hostname ip : string) (port : Z).

(** The state the manager reads and writes: the files, by path, and the
    log it has produced so far. *)
Record World := {
  fs : gmap string string;
  log : list (Level * Msg)
}.

(** One entry of NetBox's [results]. *)
Record IpData := {
  dns_name : option string;
  address : string;
  custom_fields : list (string * string)
}.

(** The outcome of [requests.get] on NetBox's address list. *)
Inductive Response :=
| Replied (status_code : Z) (results : list IpData)
| RequestRaised (exc : string).

(** What the collaborators answer during one call. *)
Record Env := {
  netbox_response : Response;
  now_iso : string;        (* datetime.now().isoformat() *)
  now_stamp : string;      (* datetime.now().strftime('%Y%m%d-%H%M%S') *)
  tmp_dir : string;        (* tempfile.gettempdir() *)
  tmp_rand : string;       (* the random part of the temporary name *)
  validate_run : Run;      (* caddy validate *)
  reload_run : Run;        (* caddy reload *)
  write_result : WriteResult
}.

(** [self]: the one setting the embedded methods read. *)
Record CaddyServiceManager := { domain : string }.

(** *** A state monad over [World] *)

Definition M (A : Type) : Type := World -> A * World.

Definition ret {A} (a : A) : M A := fun w => (a, w).

Definition bind {A B} (m : M A) (k : A -> M B) : M B :=
  fun w => let (a, w') := m w in k a w'.

Notation "'let*' x ':=' m 'in' k" := (bind m (fun x => k))
  (at level 10, x name, m at level 100, k at level 200).
Notation "m >> k" := (bind m (fun _ => k))
  (at level 100, k at level 200, right associativity).

Definition logger (l : Level) (m : Msg) : M unit :=
  fun w => (tt, {| fs := fs w; log := log w ++ [(l, m)] |}).

Definition exists_file (p : string) : M bool :=
  fun w => (bool_decide (is_Some (fs w !! p)), w).

Definition read_text (p : string) : M (option string) :=
  fun w => (fs w !! p, w).

Definition write_file (p content : string) : M unit :=
  fun w => (tt, {| fs := <[p := content]> (fs w); log := log w |}).

Definition unlink (p : string) : M unit :=
  fun w => (tt, {| fs := delete p (fs w); log := log w |}).

(** [shutil.copy2(src, dst)] of an existing [src]. *)
Definition copy2 (src dst : string) : M unit :=
  fun w =>
    match fs w !! src with
    | Some c => (tt, {| fs := <[dst := c]> (fs w); log := log w |})
    | None => (tt, w)
    end.

Fixpoint for_each {A} (l : list A) (body : A -> M unit) : M unit :=
  match l with
  | [] => ret tt
  | x :: rest => body x >> for_each rest body
  end.

(** *** Paths *)

Definition caddy_config_dir : string := "/opt/caddy".
Definition services_config_dir : string := path_join caddy_config_dir "services".
Definition main_caddyfile : string := path_join caddy_config_dir "Caddyfile".
Definition backup_dir : string := path_join caddy_config_dir "backups".

(** The name [tempfile.NamedTemporaryFile(suffix='.caddyfile')] gives the
    file it creates. *)
Definition temp_file_path (env : Env) : string :=
  path_join (tmp_dir env) ("tmp" +:+ tmp_rand env +:+ ".caddyfile").

(** *** Services *)

Record Detected := {
  type : string;
  port : Z;
  protocol : string
}.

(** A service as [get_services_from_netbox] and [add_service_manually] build
    it; the keys ['port'] and ['protocol'] are [service_port] and
    [service_protocol] here. *)
Record Service := {
  hostname : string;
  ip : string;
  service_type : string;
  service_port : Z;
  service_protocol : string;
  custom_config : option (list (string * string))
}.

(** [service_patterns], in the order of the dict literal. *)
Definition service_patterns : list (string * Detected) := [
  ("gitlab", {| port := 80; type := "web"; protocol := "http" |});
  ("git", {| port := 80; type := "web"; protocol := "http" |});
  ("netbox", {| port := 8080; type := "web"; protocol := "http" |});
  ("ipam", {| port := 8080; type := "web"; protocol := "http" |});
  ("grafana", {| port := 3000; type := "monitoring"; protocol := "http" |});
  ("prometheus", {| port := 9090; type := "monitoring"; protocol := "http" |});
  ("api", {| port := 8080; type := "api"; protocol := "http" |});
  ("docs", {| port := 8000; type := "docs"; protocol := "http" |});
  ("admin", {| port := 8080; type := "secure"; protocol := "http" |})
].

(** The [for pattern, config in ...] loop of [detect_services]: the first
    pattern found in the host name appends its entry and breaks. *)
Fixpoint check_patterns (patterns : list (string * Detected))
         (hostname_lower : string) (detected : list Detected) : list Detected :=
  match patterns with
  | [] => detected
  | (pattern, config) :: rest =>
      if Str.contains pattern hostname_lower then
        detected ++ [{| type := type config; port := port config;
                        protocol := protocol config |}]
      else check_patterns rest hostname_lower detected
  end.

Definition detect_services (hostname ip : string)
           (custom_fields : list (string * string)) : list Detected :=
  let detected := [] in
  let hostname_lower := Str.lower hostname in
  let detected := check_patterns service_patterns hostname_lower detected in
  match detected with
  | [] => detected ++ [{| type := "web"; port := 80; protocol := "http" |}]
  | _ :: _ => detected
  end.

(** Entries without a [dns_name] are skipped by [get_services_from_netbox]. *)
Definition named (ip_data : IpData) : bool :=
  match dns_name ip_data with
  | None | Some EmptyString => false
  | Some _ => true
  end.

(** The body of the loop over [results] in [get_services_from_netbox]. *)
Fixpoint collect_services (results : list IpData) (services : list Service)
  : list Service :=
  match results with
  | [] => services
  | ip_data :: rest =>
      match dns_name ip_data with
      | None | Some EmptyString => collect_services rest services
      | Some hostname =>
          let ip_address := Str.before_char "/" (address ip_data) in
          let detected_services :=
            detect_services hostname ip_address (custom_fields ip_data) in
          collect_services rest
            (services ++
             map (fun service =>
                    {| hostname := hostname;
                       ip := ip_address;
                       service_type := type service;
                       service_port := port service;
                       service_protocol := protocol service;
                       custom_config := Some [] |})
                 detected_services)
      end
  end.

Definition get_services_from_netbox (env : Env) : M (list Service) :=
  let services := [] in
  match netbox_response env with
  | RequestRaised e =>
      logger ERROR (NetboxError e) >> ret []
  | Replied status_code results =>
      if negb (status_code =? 200) then
        logger ERROR (NetboxGetFailed status_code) >> ret services
      else
        let services := collect_services results services in
        logger INFO (NetboxRetrieved (length services)) >> ret services
  end.

(** *** Templates *)

Definition proxy_lines : list string := [
  "{hostname} {{";
  "    tls {{";
  "        dns cloudflare {{env.CLOUDFLARE_API_TOKEN}}";
  "    }}";
  "    reverse_proxy {ip}:{port} {{";
  "        header_up Host {{upstream_hostport}}";
  "        header_up X-Real-IP {{remote_host}}";
  "        header_up X-Forwarded-For {{remote_host}}";
  "        header_up X-Forwarded-Proto {{scheme}}";
  "    }}"
].

Definition quoted (s : string) : string := Str.dq +:+ s +:+ Str.dq.

Definition web_template : string :=
  Str.join Str.nl ([EmptyString] ++ proxy_lines ++ [
    "    encode gzip";
    "    log {{";
    "        output file /var/log/caddy/{service}-access.log";
    "        format json";
    "    }}";
    "}}"
  ]).

Definition api_template : string :=
  Str.join Str.nl ([EmptyString] ++ proxy_lines ++ [
    "    # API-specific headers";
    "    header {{";
    "        Access-Control-Allow-Origin *";
    "        Access-Control-Allow-Methods " +:+ quoted "GET, POST, PUT, DELETE, OPTIONS";
    "        Access-Control-Allow-Headers " +:+ quoted "Content-Type, Authorization";
    "    }}";
    "    encode gzip";
    "}}"
  ]).

Definition secure_template : string :=
  Str.join Str.nl ([EmptyString] ++ proxy_lines ++ [
    "    # Security headers";
    "    header {{";
    "        Strict-Transport-Security " +:+ quoted "max-age=31536000; includeSubDomains; preload";
    "        X-Frame-Options DENY";
    "        X-Content-Type-Options nosniff";
    "        X-XSS-Protection " +:+ quoted "1; mode=block";
    "        Content-Security-Policy " +:+ quoted "default-src 'self'";
    "    }}";
    "    encode gzip";
    "}}"
  ]).

Definition service_templates : list (string * string) := [
  ("web", web_template);
  ("api", api_template);
  ("secure", secure_template)
].

(** [self.service_templates.get(key, self.service_templates['web'])] *)
Definition get_template (key : string) : string :=
  default web_template (Str.kw_get service_templates key).

Definition template_key (service : Service) : string :=
  if Str.contains "admin" (hostname service) then "secure" else service_type service.

(** The host name a block is rendered for. *)
Definition qualified_hostname (self : CaddyServiceManager) (service : Service)
  : string :=
  let hostname := hostname service in
  if negb (Str.endswith ("." +:+ domain self) hostname) then
    if negb (Str.contains "." hostname) then hostname +:+ "." +:+ domain self
    else hostname
  else hostname.

Definition format_args (self : CaddyServiceManager) (service : Service)
  : list (string * string) := [
  ("hostname", qualified_hostname self service);
  ("ip", ip service);
  ("port", Str.of_int (service_port service));
  ("service", Str.before_char "." (hostname service))
].

(** [format] raises on none of the three templates (lemma
    [format_templates_defined]), so the default is never taken. *)
Definition generate_service_config (self : CaddyServiceManager)
           (service : Service) : string :=
  let template := get_template (template_key service) in
  default EmptyString (Str.format template (format_args self service)).

(** The [backup_file] of [backup_current_config]. *)
Definition backup_path (env : Env) : string :=
  path_join backup_dir ("Caddyfile.backup." +:+ now_stamp env).

Definition backup_current_config (env : Env) : M string :=
  let timestamp := now_stamp env in
  let backup_file := path_join backup_dir ("Caddyfile.backup." +:+ timestamp) in
  let* present := exists_file main_caddyfile in
  if present then
    copy2 main_caddyfile backup_file >>
    logger INFO (BackedUp backup_file) >>
    ret backup_file
  else ret EmptyString.

Definition header (self : CaddyServiceManager) (now : string) : string :=
  Str.join Str.nl [
    "# Auto-generated Caddyfile - " +:+ now;
    "# Generated by Caddy Service Manager";
    "# DO NOT EDIT MANUALLY - Changes will be overwritten";
    EmptyString;
    "# Global configuration";
    "{";
    "    email admin@" +:+ domain self;
    "    auto_https on";
    "}";
    EmptyString;
    EmptyString
  ].

(** The loop of [generate_main_caddyfile] appending to [service_configs]. *)
Fixpoint append_configs (self : CaddyServiceManager) (services : list Service)
         (service_configs : list string) : list string :=
  match services with
  | [] => service_configs
  | service :: rest =>
      let config := generate_service_config self service in
      append_configs self rest (service_configs ++ [config])
  end.

Definition generate_main_caddyfile (self : CaddyServiceManager) (env : Env)
           (services : list Service) : string :=
  let header := header self (now_iso env) in
  let service_configs := append_configs self services [] in
  header +:+ Str.join Str.nl service_configs.

(** *** Validation, activation and the update cycle *)

Definition validate_caddy_config (env : Env) (config_content : string) : M bool :=
  let temp_file_path := temp_file_path env in
  write_file temp_file_path config_content >>
  match validate_run env with
  | Completed returncode stderr =>
      unlink temp_file_path >>
      if returncode =? 0 then logger INFO ConfigValid >> ret true
      else logger ERROR (ConfigInvalid stderr) >> ret false
  | RunRaised e =>
      logger ERROR (ValidateError e) >> ret false
  end.

Definition reload_caddy (env : Env) : M bool :=
  match reload_run env with
  | Completed returncode stderr =>
      if returncode =? 0 then logger INFO ReloadOk >> ret true
      else logger ERROR (ReloadFailed stderr) >> ret false
  | RunRaised e =>
      logger ERROR (ReloadError e) >> ret false
  end.

(** [if backup_file and Path(backup_file).exists(): shutil.copy2(...)],
    followed by the log call of the branch. *)
Definition restore_backup (backup_file : string) (l : Level) (m : Msg) : M unit :=
  if negb (String.eqb backup_file EmptyString) then
    let* present := exists_file backup_file in
    if present then copy2 backup_file main_caddyfile >> logger l m
    else ret tt
  else ret tt.

Definition update_caddy_configuration (self : CaddyServiceManager) (env : Env)
  : M bool :=
  logger INFO UpdateStarting >>
  let* services := get_services_from_netbox env in
  match services with
  | [] => logger WARNING NoServicesFound >> ret false
  | _ :: _ =>
      let new_config := generate_main_caddyfile self env services in
      let* valid := validate_caddy_config env new_config in
      if negb valid then
        logger ERROR ValidationFailedAborting >> ret false
      else
        let* backup_file := backup_current_config env in
        match write_result env with
        | Written =>
            write_file main_caddyfile new_config >>
            logger INFO (CaddyfileUpdated (length services)) >>
            let* reloaded := reload_caddy env in
            if reloaded then
              logger INFO UpdatedSuccessfully >>
              logger INFO ConfiguredServices >>
              for_each services (fun service =>
                logger INFO (ConfiguredService (hostname service) (ip service)
                                               (service_port service))) >>
              ret true
            else
              restore_backup backup_file ERROR ReloadFailedRestoredBackup >>
              ret false
        | WriteRaised e left_in_file =>
            match left_in_file with
            | Some partial => write_file main_caddyfile partial
            | None => ret tt
            end >>
            logger ERROR (UpdateError e) >>
            restore_backup backup_file INFO RestoredBackupAfterError >>
            ret false
        end
  end.

Definition add_service_manually (self : CaddyServiceManager) (env : Env)
           (hostname ip : string) (port : Z) (service_type : string) : M bool :=
  logger INFO (AddingManually hostname ip port) >>
  let service := {| hostname := hostname;
                    ip := ip;
                    service_port := port;
                    service_type := service_type;
                    service_protocol := "http";
                    custom_config := None |} in
  let service_config := generate_service_config self service in
  let service_file :=
    path_join services_config_dir
              (Str.replace_char "." "_" hostname +:+ ".caddyfile") in
  write_file service_file service_config >>
  update_caddy_configuration self env.

(** The command line of [main], with the port of [--add] already parsed. *)
Inductive Args :=
| ArgUpdate
| ArgAdd (hostname ip : string) (port : Z) (service_type : string)
| ArgValidate
| ArgNone.

(** [main]: the exit status of the process. *)
Definition main (self : CaddyServiceManager) (env : Env) (args : Args) : M Z :=
  match args with
  | ArgUpdate =>
      let* success := update_caddy_configuration self env in
      ret (if success then 0 else 1)
  | ArgAdd hostname ip port service_type =>
      let* success := add_service_manually self env hostname ip port service_type in
      ret (if success then 0 else 1)
  | ArgValidate =>
      let* config := read_text main_caddyfile in
      match config with
      | Some config =>
          let* valid := validate_caddy_config env config in
          ret (if valid then 0 else 1)
      | None => ret 1
      end
  | ArgNone => ret 0
  end.

End Caddy.

(** ** configs/netbox/discovery-scripts/discovery-agent.py *)

Module Discovery.

Record ScannedService := {
  port : Z;
  protocol : string;
  service : string;
  version : string;
  product : string
}.

(** [host_info], as [perform_network_scan] builds it. *)
Record Host := {
  ip : string;
  hostname : option string;
  mac_address : option string;
  vendor : option string;
  last_seen : string;
  services : list ScannedService
}.

(** [netbox_data], the body of the PATCH or POST request. *)
Record NetboxData := {
  nb_address : string;
  nb_status : string;
  nb_description : string;
  cf_last_seen : string;
  cf_discovery_method : string;
  nb_dns_name : option string
}.

(** The answer to an HTTP request: a status code, or the call raises. *)
Inductive Reply :=
| Status (status_code : Z)
| Raises (exc : string).

(** What the agent's collaborators answer during one run: NetBox's
    connection test and site, nmap's scans, the answer to a write request
    sent to NetBox and the answer to a record sent to the DNS server.
    [netbox_write] answers the PATCH or POST of [update_netbox_ip]; its
    [Raises] stands for an exception anywhere in that method, the lookup
    before the write included.  [elapsed] is the duration the clock gives at
    the end of the run. *)
Record Env := {
  discovery_networks : list string;
  technitium_token : option string;
  connection_ok : bool;
  site_id : option Z;
  prefix_id : string -> option Z;
  network_scan : string -> list Host;
  service_scan : string -> list ScannedService;
  netbox_write : NetboxData -> Reply;
  dns_add : string -> string -> Reply;
  now : string;
  elapsed : string
}.

(** The two stores the agent writes to: NetBox's address records, by
    address, and the DNS server's A records, by name.  A write request a
    store answers with success is taken to have stored what was sent, and
    the lookup of [update_netbox_ip] is answered from the store: an address
    that has a record is updated (PATCH), another is created (POST). *)
Record World := {
  netbox_ips : gmap string NetboxData;
  dns_records : gmap string string
}.

Definition M (A : Type) : Type := World -> A * World.

Definition ret {A} (a : A) : M A := fun w => (a, w).

Definition bind {A B} (m : M A) (k : A -> M B) : M B :=
  fun w => let (a, w') := m w in k a w'.

Notation "'let*' x ':=' m 'in' k" := (bind m (fun x => k))
  (at level 10, x name, m at level 100, k at level 200).

(** Python's truth value of an optional string. *)
Definition truthy (s : option string) : bool :=
  match s with
  | None | Some EmptyString => false
  | Some _ => true
  end.

(** A PATCH replaces the fields sent and keeps the others. *)
Definition patch (old new : NetboxData) : NetboxData :=
  {| nb_address := nb_address new;
     nb_status := nb_status new;
     nb_description := nb_description new;
     cf_last_seen := cf_last_seen new;
     cf_discovery_method := cf_discovery_method new;
     nb_dns_name := match nb_dns_name new with
                    | Some n => Some n
                    | None => nb_dns_name old
                    end |}.

Definition netbox_data_of (ip_data : Host) : NetboxData :=
  {| nb_address := ip ip_data;
     nb_status := "active";
     nb_description := "Auto-discovered on " +:+ Str.take 10 (last_seen ip_data);
     cf_last_seen := last_seen ip_data;
     cf_discovery_method := "network_scan";
     nb_dns_name := if truthy (hostname ip_data) then hostname ip_data else None |}.

(** [response.status_code in [200, 201]] *)
Definition accepted (r : Reply) : bool :=
  match r with
  | Status status_code => (status_code =? 200) || (status_code =? 201)
  | Raises _ => false
  end.

(** Whether NetBox accepts the write request sent for a host. *)
Definition upsert_ok (env : Env) (host : Host) : bool :=
  accepted (netbox_write env (netbox_data_of host)).

(** The hosts of one run, in the order they are processed. *)
Definition cycle_hosts (env : Env) : list Host :=
  flat_map (fun network => network_scan env (Str.strip network))
           (discovery_networks env).

(** NetBox holds a record for address [a]. *)
Definition recorded (w : World) (a : string) : Prop :=
  exists r, netbox_ips w !! a = Some r /\ nb_address r = a.

Definition update_netbox_ip (env : Env) (ip_data : Host) : M bool :=
  fun w =>
    let ip_address := ip ip_data in
    let netbox_data := netbox_data_of ip_data in
    match netbox_write env netbox_data with
    | Raises _ => (false, w)
    | Status status_code =>
        if (status_code =? 200) || (status_code =? 201) then
          let stored :=
            match netbox_ips w !! ip_address with
            | Some old => patch old netbox_data      (* "Updated" *)
            | None => netbox_data                    (* "Created" *)
            end in
          (true, {| netbox_ips := <[ip_address := stored]> (netbox_ips w);
                    dns_records := dns_records w |})
        else (false, w)
    end.

Definition sync_to_dns (env : Env) (ip_data : Host) : M bool :=
  fun w =>
    match technitium_token env, hostname ip_data with
    | Some (String _ _), Some (String _ _ as hostname) =>
        let domain := Str.before_char "." hostname +:+ ".doofus.co" in
        match dns_add env domain (ip ip_data) with
        | Raises _ => (false, w)
        | Status status_code =>
            if status_code =? 200 then
              (true, {| netbox_ips := netbox_ips w;
                        dns_records := <[domain := ip ip_data]> (dns_records w) |})
            else (false, w)
        end
    | _, _ => (false, w)
    end.

Record Report := {
  timestamp : string;
  networks_scanned : list string;
  total_hosts : Z;
  active_hosts : Z;
  new_hosts : Z;
  updated_hosts : Z;
  dns_synced : Z;
  services_discovered : Z;
  duration_seconds : option string;
  status : option string
}.

Inductive Result :=
| Failed (reason : string)
| Finished (report : Report).

Definition generate_network_report (env : Env) : Report :=
  {| timestamp := now env;
     networks_scanned := discovery_networks env;
     total_hosts := 0;
     active_hosts := 0;
     new_hosts := 0;
     updated_hosts := 0;
     dns_synced := 0;
     services_discovered := 0;
     duration_seconds := None;
     status := None |}.

(** [any(port in str(host['ip']) for port in ['1', '3', '10'])] *)
Definition interesting (host : Host) : bool :=
  existsb (fun port => Str.contains port (ip host)) ["1"; "3"; "10"].

(** [host['services'] = scanned] *)
Definition set_services (host : Host) (scanned : list ScannedService) : Host :=
  {| ip := ip host; hostname := hostname host;
     mac_address := mac_address host; vendor := vendor host;
     last_seen := last_seen host; services := scanned |}.

(** The body of [for host in discovered_hosts]. *)
Definition process_host (env : Env) (host : Host) (report : Report) : M Report :=
  let report := {| timestamp := timestamp report;
                   networks_scanned := networks_scanned report;
                   total_hosts := total_hosts report + 1;
                   active_hosts := active_hosts report;
                   new_hosts := new_hosts report;
                   updated_hosts := updated_hosts report;
                   dns_synced := dns_synced report;
                   services_discovered := services_discovered report;
                   duration_seconds := duration_seconds report;
                   status := status report |} in
  let '(host, found) :=
    if interesting host then
      let host := set_services host (service_scan env (ip host)) in
      (host, Z.of_nat (length (services host)))
    else (host, 0) in
  let* updated := update_netbox_ip env host in
  let* synced := sync_to_dns env host in
  ret {| timestamp := timestamp report;
         networks_scanned := networks_scanned report;
         total_hosts := total_hosts report;
         active_hosts := active_hosts report + 1;
         new_hosts := new_hosts report;
         updated_hosts := updated_hosts report + (if updated then 1 else 0);
         dns_synced := dns_synced report + (if synced then 1 else 0);
         services_discovered := services_discovered report + found;
         duration_seconds := duration_seconds report;
         status := status report |}.

Fixpoint process_hosts (env : Env) (hosts : list Host) (report : Report)
  : M Report :=
  match hosts with
  | [] => ret report
  | host :: rest =>
      let* report := process_host env host report in
      process_hosts env rest report
  end.

(** The body of [for network in self.discovery_networks]. *)
Fixpoint process_networks (env : Env) (networks : list string) (report : Report)
  : M Report :=
  match networks with
  | [] => ret report
  | network :: rest =>
      let network := Str.strip network in
      let prefix := prefix_id env network in
      let discovered_hosts := network_scan env network in
      let* report := process_hosts env discovered_hosts report in
      process_networks env rest report
  end.

Definition run_discovery (env : Env) : M Result :=
  if negb (connection_ok env) then ret (Failed "netbox_connection_failed")
  else
    match site_id env with
    | None => ret (Failed "site_creation_failed")
    | Some _ =>
        let report := generate_network_report env in
        let* report := process_networks env (discovery_networks env) report in
        ret (Finished {| timestamp := timestamp report;
                         networks_scanned := networks_scanned report;
                         total_hosts := total_hosts report;
                         active_hosts := active_hosts report;
                         new_hosts := new_hosts report;
                         updated_hosts := updated_hosts report;
                         dns_synced := dns_synced report;
                         services_discovered := services_discovered report;
                         duration_seconds := Some (elapsed env);
                         status := Some "completed" |})
    end.

End Discovery.

(** ** Sample inputs *)

Module Sample.
Import Caddy.

Definition self : CaddyServiceManager := {| domain := "doofus.co" |}.

Definition gitlab_entry : IpData :=
  {| dns_name := Some "gitlab.doofus.co";
     address := "10.203.1.5/24";
     custom_fields := [] |}.

Definition gitlab_service : Service :=
  {| hostname := "gitlab.doofus.co"; ip := "10.203.1.5"; service_type := "web";
     service_port := 80; service_protocol := "http"; custom_config := Some [] |}.

Definition gitlab_admin_service : Service :=
  {| hostname := "gitlab-admin.example"; ip := "10.203.1.7"; service_type := "web";
     service_port := 80; service_protocol := "http"; custom_config := Some [] |}.

(** NetBox lists one named address; validation and reload succeed. *)
Definition env_ok : Env :=
  {| netbox_response := Replied 200 [gitlab_entry];
     now_iso := "2025-01-01T12:00:00";
     now_stamp := "20250101-120000";
     tmp_dir := "/tmp";
     tmp_rand := "k3x9a2bq";
     validate_run := Completed 0 EmptyString;
     reload_run := Completed 0 EmptyString;
     write_result := Written |}.

Definition with_netbox (r : Response) (env : Env) : Env :=
  {| netbox_response := r; now_iso := now_iso env; now_stamp := now_stamp env;
     tmp_dir := tmp_dir env; tmp_rand := tmp_rand env;
     validate_run := validate_run env; reload_run := reload_run env;
     write_result := write_result env |}.

Definition with_validate (r : Run) (env : Env) : Env :=
  {| netbox_response := netbox_response env; now_iso := now_iso env;
     now_stamp := now_stamp env; tmp_dir := tmp_dir env; tmp_rand := tmp_rand env;
     validate_run := r; reload_run := reload_run env;
     write_result := write_result env |}.

Definition with_reload (r : Run) (env : Env) : Env :=
  {| netbox_response := netbox_response env; now_iso := now_iso env;
     now_stamp := now_stamp env; tmp_dir := tmp_dir env; tmp_rand := tmp_rand env;
     validate_run := validate_run env; reload_run := r;
     write_result := write_result env |}.

Definition env_invalid : Env :=
  with_validate (Completed 1 "adapting config: unrecognized directive") env_ok.

Definition env_validate_timeout : Env :=
  with_validate (RunRaised "TimeoutExpired") env_ok.

Definition env_reload_failed : Env :=
  with_reload (Completed 1 "loading new config: bind: address in use") env_ok.

Definition env_no_services : Env := with_netbox (Replied 200 []) env_ok.

Definition env_unreachable : Env :=
  with_netbox (RequestRaised "ConnectionError") env_ok.

Definition host (ip : string) (hostname : option string) : Discovery.Host :=
  {| Discovery.ip := ip; Discovery.hostname := hostname;
     Discovery.mac_address := None; Discovery.vendor := None;
     Discovery.last_seen := "2025-01-01T12:00:00.000000";
     Discovery.services := [] |}.

(** One network with three hosts; NetBox refuses the record of the
    second. *)
Definition discovery_env : Discovery.Env :=
  {| Discovery.discovery_networks := [" 10.203.1.0/24"];
     Discovery.technitium_token := Some "token";
     Discovery.connection_ok := true;
     Discovery.site_id := Some 1;
     Discovery.prefix_id := fun _ => Some 1;
     Discovery.network_scan := fun network =>
       if String.eqb network "10.203.1.0/24" then
         [host "10.203.1.1" (Some "gw.doofus.co");
          host "10.203.1.72" None;
          host "10.203.1.5" (Some "gitlab.doofus.co")]
       else [];
     Discovery.service_scan := fun _ => [];
     Discovery.netbox_write := fun data =>
       if String.eqb (Discovery.nb_address data) "10.203.1.72"
       then Discovery.Status 400 else Discovery.Status 201;
     Discovery.dns_add := fun _ _ => Discovery.Status 200;
     Discovery.now := "2025-01-01T12:00:00.000000";
     Discovery.elapsed := "12.5" |}.

Definition discovery_world : Discovery.World :=
  {| Discovery.netbox_ips := ∅; Discovery.dns_records := ∅ |}.

(** No Caddyfile yet. *)
Definition world_fresh : World := {| fs := ∅; log := [] |}.

(** A Caddyfile is in place. *)
Definition world_running : World :=
  {| fs := {[ main_caddyfile := "# previous Caddyfile" ]}; log := [] |}.

End Sample.

(** ** The network prober of the discovery agent *)

Module Prober.
Import Discovery.

(** [s.rstrip(c)] for a single character. *)
Fixpoint lstrip_char (c : ascii) (s : string) : string :=
  match s with
  | EmptyString => EmptyString
  | String a s' => if Ascii.eqb a c then lstrip_char c s' else s
  end.

Definition rstrip_char (c : ascii) (s : string) : string :=
  Str.rev (lstrip_char c (Str.rev s)).

(** What nmap holds for one host after the ping scan. *)
Record NmapHost := {
  nm_host : string;
  nm_state : string;           (* self.nm[host].state() *)
  nm_mac : option string       (* self.nm[host]['addresses'].get('mac') *)
}.

(** The answer of the MAC vendor service. *)
Inductive VendorReply :=
| VendorAnswered (status_code : Z) (text : string)
| VendorRaised.

(** [port_info], what nmap holds for one port of a service scan. *)
Record PortInfo := {
  state : string;
  name : option string;
  port_version : option string;
  port_product : option string
}.

(** What the prober's collaborators answer: nmap's ping scan of a network
    ([None] when [nm.scan] raises) and the hosts it then lists, the text of
    the first PTR record of an address ([None] when the resolution raises),
    the vendor service, the clock when a host is visited, and nmap's
    service scan of an address: [None] when [nm.scan] raises, [Some None]
    when the address is not among [all_hosts()], else per protocol the
    ports with their [port_info]. *)
Record Env := {
  ping_scan : string -> option (list NmapHost);
  ptr_lookup : string -> option string;
  vendor_get : string -> VendorReply;
  seen_at : string -> string;
  port_scan : string -> option (option (list (string * list (Z * PortInfo))))
}.

(** [host_info] once the loop body of [perform_network_scan] has filled it
    in. *)
Definition host_info (env : Env) (host : NmapHost) : Host :=
  let hostname :=
    match ptr_lookup env (nm_host host) with
    | Some text => Some (rstrip_char "." text)
    | None => None
    end in
  let vendor :=
    match nm_mac host with
    | Some mac =>
        match vendor_get env mac with
        | VendorAnswered status_code text =>
            if status_code =? 200 then Some text else None
        | VendorRaised => None
        end
    | None => None
    end in
  {| ip := nm_host host;
     hostname := hostname;
     mac_address := nm_mac host;
     vendor := vendor;
     last_seen := seen_at env (nm_host host);
     services := [] |}.

(** The loop [for host in self.nm.all_hosts()]. *)
Fixpoint scan_hosts (env : Env) (hosts : list NmapHost)
         (discovered_hosts : list Host) : list Host :=
  match hosts with
  | [] => discovered_hosts
  | host :: rest =>
      if String.eqb (nm_state host) "up" then
        scan_hosts env rest (discovered_hosts ++ [host_info env host])
      else scan_hosts env rest discovered_hosts
  end.

Definition perform_network_scan (env : Env) (network : string) : list Host :=
  match ping_scan env network with
  | Some hosts => scan_hosts env hosts []
  | None => []
  end.

Definition service_of (protocol : string) (port : Z) (port_info : PortInfo)
  : ScannedService :=
  {| Discovery.port := port;
     Discovery.protocol := protocol;
     service := default "unknown" (name port_info);
     version := default EmptyString (port_version port_info);
     product := default EmptyString (port_product port_info) |}.

(** The loop [for port in ports]. *)
Fixpoint scan_ports (protocol : string) (ports : list (Z * PortInfo))
         (services : list ScannedService) : list ScannedService :=
  match ports with
  | [] => services
  | (port, port_info) :: rest =>
      if String.eqb (state port_info) "open" then
        scan_ports protocol rest (services ++ [service_of protocol port port_info])
      else scan_ports protocol rest services
  end.

(** The loop [for protocol in self.nm[ip].all_protocols()]. *)
Fixpoint scan_protocols (protocols : list (string * list (Z * PortInfo)))
         (services : list ScannedService) : list ScannedService :=
  match protocols with
  | [] => services
  | (protocol, ports) :: rest =>
      scan_protocols rest (scan_ports protocol ports services)
  end.

Definition perform_service_scan (env : Env) (ip : string) : list ScannedService :=
  let services := [] in
  match port_scan env ip with
  | Some (Some protocols) => scan_protocols protocols services
  | Some None => services
  | None => services
  end.

End Prober.

(** ** Names for what the discovery agent's requests achieve *)

Module DiscoveryMore.
Import Discovery.

(** The record name [sync_to_dns] writes for a host name. *)
Definition dns_name_of (hostname : string) : string :=
  Str.before_char "." hostname +:+ ".doofus.co".

(** Whether [sync_to_dns] sends a record for the host and the DNS server
    answers 200. *)
Definition dns_ok (env : Env) (host : Host) : bool :=
  match technitium_token env, hostname host with
  | Some (String _ _), Some (String _ _ as name) =>
      match dns_add env (dns_name_of name) (ip host) with
      | Status status_code => status_code =? 200
      | Raises _ => false
      end
  | _, _ => false
  end.

(** The services the deep scan finds on a host, none when the host is not
    scanned. *)
Definition deep_scan (env : Env) (host : Host) : list ScannedService :=
  if interesting host then service_scan env (ip host) else [].

End DiscoveryMore.

(** ** Names for what the service manager's steps achieve *)

Module CaddyTerms.
Import Caddy.

(** What [get_services_from_netbox] makes of one named entry. *)
Definition fetched_from (d : IpData) (s : Service) : Prop :=
  dns_name d = Some (hostname s) /\
  ip s = Str.before_char "/" (address d) /\
  Str.contains "/" (ip s) = false /\
  detect_services (hostname s) (ip s) (custom_fields d)
  = [{| type := service_type s; port := service_port s;
        protocol := service_protocol s |}] /\
  custom_config s = Some [].

(** The lines every template starts with, once [format] has filled them
    in, followed by [rest]. *)
Definition proxy_block (hostname ip port rest : string) : string :=
  Str.nl +:+ hostname +:+ " {" +:+ Str.nl +:+
  "    tls {" +:+ Str.nl +:+
  "        dns cloudflare {env.CLOUDFLARE_API_TOKEN}" +:+ Str.nl +:+
  "    }" +:+ Str.nl +:+
  "    reverse_proxy " +:+ ip +:+ ":" +:+ port +:+ " {" +:+ Str.nl +:+
  "        header_up Host {upstream_hostport}" +:+ Str.nl +:+
  "        header_up X-Real-IP {remote_host}" +:+ Str.nl +:+
  "        header_up X-Forwarded-For {remote_host}" +:+ Str.nl +:+
  "        header_up X-Forwarded-Proto {scheme}" +:+ Str.nl +:+
  "    }" +:+ Str.nl +:+ rest.


End CaddyTerms.

(** ** More sample inputs *)

Module SampleMore.
Import Caddy.

Definition grafana_service : Service :=
  {| hostname := "grafana"; ip := "10.203.1.20"; service_type := "monitoring";
     service_port := 3000; service_protocol := "http"; custom_config := Some [] |}.

Definition printer_entry : IpData :=
  {| dns_name := Some "Printer.lan"; address := "10.203.1.30/24";
     custom_fields := [] |}.

Definition unnamed_entry : IpData :=
  {| dns_name := None; address := "10.203.1.31/24"; custom_fields := [] |}.

Definition with_write (r : WriteResult) (env : Env) : Env :=
  {| netbox_response := netbox_response env; now_iso := now_iso env;
     now_stamp := now_stamp env; tmp_dir := tmp_dir env; tmp_rand := tmp_rand env;
     validate_run := validate_run env; reload_run := reload_run env;
     write_result := r |}.

(** The disk fills up while the Caddyfile is written. *)
Definition env_write_failed : Env :=
  with_write (WriteRaised "OSError" (Some "# Auto-generated Caddyf")) Sample.env_ok.

(** Two hosts whose names start with the same label. *)
Definition nas_lan : Discovery.Host := Sample.host "10.203.1.40" (Some "nas.lan").
Definition nas_office : Discovery.Host :=
  Sample.host "10.203.7.40" (Some "nas.office.example").

(** A Caddyfile and an unrelated file are in place. *)
Definition world_with_hosts : World :=
  {| fs := {[ main_caddyfile := "# previous Caddyfile";
              "/etc/hosts" := "127.0.0.1 localhost" ]};
     log := [] |}.

End SampleMore.

(** * Properties *)

(** ** Strings *)

Section StrFacts.

Example format_braces :
  Str.format "a {{x}} {y}:{z}" [("y", "1"); ("z", "2")] = Some "a {x} 1:2".
Proof. reflexivity. Qed.

Example lower_mixed : Str.lower "GitLab-API.Example" = "gitlab-api.example".
Proof. reflexivity. Qed.

Example contains_examples :
  Str.contains "git" "my-gitlab" = true /\ Str.contains "api" "gitlab" = false.
Proof. split; reflexivity. Qed.

Lemma app_cons (c : ascii) (a b : string) :
  String c a +:+ b = String c (a +:+ b).
Proof. reflexivity. Qed.

Lemma app_assoc_str (a b c : string) : (a +:+ b) +:+ c = a +:+ (b +:+ c).
Proof.
  induction a as [|x a IH]; [reflexivity|].
  by rewrite !app_cons, IH.
Qed.

Lemma rev_onto_app (a b acc : string) :
  Str.rev_onto (a +:+ b) acc = Str.rev_onto b (Str.rev_onto a acc).
Proof.
  revert acc. induction a as [|c a IH]; intros acc; [reflexivity|].
  rewrite app_cons. cbn [Str.rev_onto]. apply IH.
Qed.

Lemma rev_onto_spec (s acc : string) : Str.rev_onto s acc = Str.rev s +:+ acc.
Proof.
  unfold Str.rev. revert acc. induction s as [|c s IH]; intros acc; [reflexivity|].
  cbn [Str.rev_onto]. rewrite (IH (String c acc)), (IH (String c EmptyString)).
  by rewrite app_assoc_str.
Qed.

Lemma startswith_app (p u v : string) :
  Str.startswith p u = true -> Str.startswith p (u +:+ v) = true.
Proof.
  revert u. induction p as [|a p IH]; intros [|b u]; cbn [Str.startswith];
    try done.
  rewrite app_cons. cbn [Str.startswith]. destruct (Ascii.eqb a b); auto.
Qed.

Lemma rev_app (x y : string) : Str.rev (x +:+ y) = Str.rev y +:+ Str.rev x.
Proof.
  unfold Str.rev at 1. rewrite rev_onto_app. apply rev_onto_spec.
Qed.

(** A suffix of [y] is a suffix of whatever is put in front of [y]. *)
Lemma endswith_app_r (p x y : string) :
  Str.endswith p y = true -> Str.endswith p (x +:+ y) = true.
Proof.
  unfold Str.endswith. intros H. rewrite rev_app. by apply startswith_app.
Qed.

End StrFacts.

(** ** The classifier and the renderer *)

Module CaddySpec.
Import Caddy.

Lemma get_template_cases (key : string) :
  get_template key = web_template \/ get_template key = api_template \/
  get_template key = secure_template.
Proof.
  unfold get_template, service_templates. cbn [Str.kw_get].
  destruct (String.eqb "web" key); [by left|].
  destruct (String.eqb "api" key); [by right; left|].
  destruct (String.eqb "secure" key); [by right; right|by left].
Qed.

(** [template.format] raises on none of the templates, whatever is
    substituted. *)
Lemma format_templates_defined (self : CaddyServiceManager) (service : Service) :
  is_Some (Str.format (get_template (template_key service))
                      (format_args self service)).
Proof.
  unfold format_args.
  generalize (qualified_hostname self service) (ip service)
    (Str.of_int (service_port service)) (Str.before_char "." (hostname service)).
  intros h i p s.
  destruct (get_template_cases (template_key service)) as [-> | [-> | ->]];
    vm_compute; eauto.
Qed.

Lemma detected_eta (config : Detected) :
  {| type := type config; port := port config; protocol := protocol config |}
  = config.
Proof. by destruct config. Qed.

(** The loop stops at the first pattern found in the host name: the
    patterns after it are not consulted. *)
Lemma check_patterns_first (before after : list (string * Detected))
      (tok : string) (config : Detected) (hl : string) (detected : list Detected) :
  Forall (fun rule => Str.contains rule.1 hl = false) before ->
  Str.contains tok hl = true ->
  check_patterns (before ++ (tok, config) :: after) hl detected
  = detected ++ [config].
Proof.
  intros Hbefore Htok.
  induction Hbefore as [|[t c] before Ht _ IH]; cbn [app check_patterns].
  - by rewrite Htok, detected_eta.
  - cbn in Ht. by rewrite Ht.
Qed.

Lemma check_patterns_none (patterns : list (string * Detected)) (hl : string)
      (detected : list Detected) :
  Forall (fun rule => Str.contains rule.1 hl = false) patterns ->
  check_patterns patterns hl detected = detected.
Proof.
  induction 1 as [|[t c] rest Ht _ IH]; cbn [check_patterns]; [done|].
  cbn in Ht. by rewrite Ht.
Qed.

(** Every run of the loop adds at most one entry. *)
Lemma check_patterns_cases (patterns : list (string * Detected)) (hl : string)
      (detected : list Detected) :
  check_patterns patterns hl detected = detected \/
  exists config, check_patterns patterns hl detected = detected ++ [config].
Proof.
  induction patterns as [|[t c] rest IH]; cbn [check_patterns]; [by left|].
  destruct (Str.contains t hl); [right; eauto | exact IH].
Qed.

(** C3. Rule precedence: when the lower-cased host name contains the token
    of a rule and of no rule declared before it, [detect_services] returns
    the entry of that rule alone, whichever later rules match as well. *)
Theorem detect_services_first_match_wins
        (hostname ip : string) (custom_fields : list (string * string))
        (before after : list (string * Detected)) (tok : string) (config : Detected) :
  service_patterns = before ++ (tok, config) :: after ->
  Str.contains tok (Str.lower hostname) = true ->
  (forall t c, (t, c) ∈ before -> Str.contains t (Str.lower hostname) = false) ->
  detect_services hostname ip custom_fields = [config].
Proof.
  intros Hsplit Htok Hbefore. unfold detect_services.
  rewrite Hsplit, check_patterns_first; [done| |done].
  apply Forall_forall. intros [t c] Hin. by apply (Hbefore t c).
Qed.

(** The host name of the spec's example contains "gitlab", "git" and
    "api"; the first rule decides. *)
Lemma detect_services_first_match_wins_witness :
  Str.contains "api" (Str.lower "gitlab-api.example") = true /\
  detect_services "gitlab-api.example" "10.0.0.5" []
  = [{| type := "web"; port := 80; protocol := "http" |}].
Proof.
  split; [reflexivity|].
  apply (detect_services_first_match_wins "gitlab-api.example" "10.0.0.5" []
           [] (tail service_patterns) "gitlab").
  - reflexivity.
  - reflexivity.
  - intros t c Hin. inversion Hin.
Defined.

Example detect_api_before_docs :
  detect_services "API-Docs.lab" "10.0.0.6/24" []
  = [{| type := "api"; port := 8080; protocol := "http" |}].
Proof. reflexivity. Qed.

(** Without a match the default entry is returned. *)
Lemma detect_services_no_match (hostname ip : string)
      (custom_fields : list (string * string)) :
  Forall (fun rule => Str.contains rule.1 (Str.lower hostname) = false)
         service_patterns ->
  detect_services hostname ip custom_fields
  = [{| type := "web"; port := 80; protocol := "http" |}].
Proof.
  intros Hnone. unfold detect_services. by rewrite check_patterns_none.
Qed.

Example detect_default :
  detect_services "randomhost.example" "10.0.0.8" []
  = [{| type := "web"; port := 80; protocol := "http" |}].
Proof. reflexivity. Qed.

Lemma detect_services_singleton (hostname ip : string)
      (custom_fields : list (string * string)) :
  exists service, detect_services hostname ip custom_fields = [service].
Proof.
  unfold detect_services.
  destruct (check_patterns_cases service_patterns (Str.lower hostname) [])
    as [-> | [config ->]]; cbn; eauto.
Qed.

Lemma collect_services_length (results : list IpData) (services : list Service) :
  length (collect_services results services)
  = (length services + length (List.filter named results))%nat.
Proof.
  revert services. induction results as [|d results IH]; intros services.
  - cbn. lia.
  - cbn [collect_services List.filter]. unfold named at 1.
    destruct (dns_name d) as [[|a h]|]; [apply IH| |apply IH].
    destruct (detect_services_singleton (String a h)
                (Str.before_char "/" (address d)) (custom_fields d)) as [s ->].
    rewrite IH, length_app. cbn. lia.
Qed.

(** C10. For every host name, address and attribute bag [detect_services]
    returns exactly one entry, so the service list built from NetBox's
    reply has one service per entry that carries a DNS name. *)
Theorem detect_services_exactly_one :
  (forall hostname ip custom_fields,
      length (detect_services hostname ip custom_fields) = 1%nat) /\
  (forall results,
      length (collect_services results [])
      = length (List.filter named results)).
Proof.
  split.
  - intros hostname ip cf.
    by destruct (detect_services_singleton hostname ip cf) as [s ->].
  - intros results. by rewrite collect_services_length.
Qed.


(** C4, as stated: the classifier does not override the category of a host
    name that contains "admin"; the rule declared first decides. *)
Lemma classifier_admin_not_overridden :
  Str.contains "admin" "gitlab-admin.example" = true /\
  map type (detect_services "gitlab-admin.example" "10.0.0.7" []) = ["web"] /\
  "web" <> "secure".
Proof. repeat split; done. Qed.

(** C4, amended. The override is made by the renderer: for a service whose
    host name contains "admin", [generate_service_config] renders the
    [secure] template, whatever the service's category. *)
Theorem admin_hostname_renders_secure_template
        (self : CaddyServiceManager) (service : Service) :
  Str.contains "admin" (hostname service) = true ->
  template_key service = "secure" /\
  Str.format secure_template (format_args self service)
  = Some (generate_service_config self service).
Proof.
  intros Hadmin.
  assert (Hkey : template_key service = "secure")
    by (unfold template_key; by rewrite Hadmin).
  split; [done|].
  pose proof (format_templates_defined self service) as [block Hblock].
  unfold generate_service_config. rewrite Hblock. cbn [default].
  rewrite Hkey in Hblock. exact Hblock.
Qed.

Lemma admin_hostname_renders_secure_template_witness :
  Str.contains "admin" (hostname Sample.gitlab_admin_service) = true /\
  template_key Sample.gitlab_admin_service = "secure" /\
  Str.format secure_template (format_args Sample.self Sample.gitlab_admin_service)
  = Some (generate_service_config Sample.self Sample.gitlab_admin_service).
Proof.
  split; [reflexivity|].
  apply (admin_hostname_renders_secure_template
           Sample.self Sample.gitlab_admin_service).
  reflexivity.
Defined.

(** The override reads the host name as it is, not its lower-case form. *)
Example upper_case_admin_not_overridden :
  template_key {| hostname := "GitLab-ADMIN.example"; ip := "10.0.0.7";
                  service_type := "web"; service_port := 80;
                  service_protocol := "http"; custom_config := Some [] |}
  = "web".
Proof. reflexivity. Qed.

Lemma append_configs_spec (self : CaddyServiceManager) (services : list Service)
      (service_configs : list string) :
  append_configs self services service_configs
  = service_configs ++ map (generate_service_config self) services.
Proof.
  revert service_configs.
  induction services as [|service rest IH]; intros acc; cbn [append_configs map].
  - by rewrite app_nil_r.
  - by rewrite IH, <- app_assoc.
Qed.

(** C6. Determinism of the renderer: whatever the clock says at the two
    calls, the document is the header of that call followed by the same
    blocks, one per service and in the order of the services. *)
Theorem render_blocks_deterministic
        (self : CaddyServiceManager) (env1 env2 : Env) (services : list Service) :
  exists blocks : list string,
    blocks = map (generate_service_config self) services /\
    generate_main_caddyfile self env1 services
    = header self (now_iso env1) +:+ Str.join Str.nl blocks /\
    generate_main_caddyfile self env2 services
    = header self (now_iso env2) +:+ Str.join Str.nl blocks.
Proof.
  exists (map (generate_service_config self) services).
  unfold generate_main_caddyfile. by rewrite append_configs_spec.
Qed.


End CaddySpec.

(** ** The update cycle *)

Module ReconcilerSpec.
Import Caddy.

(** *** Paths do not alias *)

Lemma temp_file_path_unfold (env : Env) :
  temp_file_path env
  = tmp_dir env +:+ "/" +:+ "tmp" +:+ tmp_rand env +:+ ".caddyfile".
Proof. reflexivity. Qed.

Lemma temp_file_path_endswith (env : Env) :
  Str.endswith ".caddyfile" (temp_file_path env) = true.
Proof.
  rewrite temp_file_path_unfold. do 4 apply endswith_app_r. reflexivity.
Qed.

(** The temporary file of the validator is never the active Caddyfile. *)
Lemma temp_file_path_not_main (env : Env) : temp_file_path env <> main_caddyfile.
Proof.
  intros H. pose proof (temp_file_path_endswith env) as E.
  rewrite H in E. discriminate E.
Qed.

(** Nor is a backup. *)
Lemma backup_path_not_main (env : Env) : backup_path env <> main_caddyfile.
Proof. unfold backup_path. vm_compute. discriminate. Qed.

Lemma backup_path_not_empty (env : Env) :
  String.eqb (backup_path env) EmptyString = false.
Proof. reflexivity. Qed.


(** *** What each step does to the world *)

Lemma get_services_run (env : Env) (w : World) :
  exists entry,
    get_services_from_netbox env w
    = ((get_services_from_netbox env w).1,
       {| fs := fs w; log := log w ++ [entry] |}).
Proof.
  unfold get_services_from_netbox.
  destruct (netbox_response env) as [code results|e]; [|by eexists].
  destruct (negb (code =? 200)); by eexists.
Qed.

(** The services fetched depend on NetBox's reply only. *)
Lemma get_services_value (env : Env) (w w' : World) :
  (get_services_from_netbox env w).1 = (get_services_from_netbox env w').1.
Proof.
  unfold get_services_from_netbox.
  destruct (netbox_response env) as [code results|e]; [|done].
  by destruct (negb (code =? 200)).
Qed.

Lemma validate_run_completed (env : Env) (c : string) (w : World)
      (returncode : Z) (stderr : string) :
  validate_run env = Completed returncode stderr ->
  validate_caddy_config env c w
  = (returncode =? 0,
     {| fs := delete (temp_file_path env) (<[temp_file_path env := c]> (fs w));
        log := log w ++ [if returncode =? 0 then (INFO, ConfigValid)
                         else (ERROR, ConfigInvalid stderr)] |}).
Proof.
  intros H. unfold validate_caddy_config. rewrite H.
  by destruct (returncode =? 0).
Qed.

Lemma validate_run_raised (env : Env) (c : string) (w : World) (e : string) :
  validate_run env = RunRaised e ->
  validate_caddy_config env c w
  = (false,
     {| fs := <[temp_file_path env := c]> (fs w);
        log := log w ++ [(ERROR, ValidateError e)] |}).
Proof. intros H. unfold validate_caddy_config. by rewrite H. Qed.

Lemma validate_result (env : Env) (c : string) (w : World) :
  (validate_caddy_config env c w).1 = run_ok (validate_run env).
Proof.
  destruct (validate_run env) as [rc err|e] eqn:H.
  - by rewrite (validate_run_completed _ _ _ _ _ H).
  - by rewrite (validate_run_raised _ _ _ _ H).
Qed.

(** The validator touches no path but its temporary file. *)
Lemma validate_frame (env : Env) (c : string) (w : World) (p : string) :
  p <> temp_file_path env ->
  fs (validate_caddy_config env c w).2 !! p = fs w !! p.
Proof.
  intros Hp. destruct (validate_run env) as [rc err|e] eqn:H.
  - rewrite (validate_run_completed _ _ _ _ _ H). cbn.
    by rewrite lookup_delete_ne, lookup_insert_ne.
  - rewrite (validate_run_raised _ _ _ _ H). cbn.
    by rewrite lookup_insert_ne.
Qed.

Lemma validate_log (env : Env) (c : string) (w : World) :
  exists entry, log (validate_caddy_config env c w).2 = log w ++ [entry].
Proof.
  destruct (validate_run env) as [rc err|e] eqn:H.
  - rewrite (validate_run_completed _ _ _ _ _ H). by eexists.
  - rewrite (validate_run_raised _ _ _ _ H). by eexists.
Qed.


(** When the checker runs to the end, the temporary file is gone
    afterwards, and a world in which it did not exist before is as it
    was. *)
Lemma validate_completed_removes_temp_file
      (env : Env) (c : string) (w : World) (returncode : Z) (stderr : string) :
  validate_run env = Completed returncode stderr ->
  fs (validate_caddy_config env c w).2 !! temp_file_path env = None /\
  (fs w !! temp_file_path env = None -> fs (validate_caddy_config env c w).2 = fs w).
Proof.
  intros H. rewrite (validate_run_completed _ _ _ _ _ H). cbn [snd fs]. split.
  - apply lookup_delete_eq.
  - intros Hfresh. rewrite delete_insert_eq. by apply delete_id.
Qed.

(** *** The validation gate *)

(** C2. When NetBox returns services and the validator does not accept
    the candidate, the cycle returns [False], its last log entry is the
    error "Configuration validation failed, aborting update", and no path
    other than the validator's temporary file has changed: neither the
    active Caddyfile nor any backup.  When the checker ran to the end and
    the temporary name was unused before, no file has changed at all. *)
Theorem validation_failure_leaves_config
        (self : CaddyServiceManager) (env : Env) (w : World) :
  (get_services_from_netbox env w).1 <> [] ->
  run_ok (validate_run env) = false ->
  (update_caddy_configuration self env w).1 = false /\
  last (log (update_caddy_configuration self env w).2)
  = Some (ERROR, ValidationFailedAborting) /\
  fs (update_caddy_configuration self env w).2 !! main_caddyfile
  = fs w !! main_caddyfile /\
  (forall p, p <> temp_file_path env ->
             fs (update_caddy_configuration self env w).2 !! p = fs w !! p) /\
  (forall returncode stderr,
      validate_run env = Completed returncode stderr ->
      fs w !! temp_file_path env = None ->
      fs (update_caddy_configuration self env w).2 = fs w).
Proof.
  intros Hservices Hreject.
  unfold update_caddy_configuration, bind. cbn [logger].
  set (w0 := {| fs := fs w; log := log w ++ [(INFO, UpdateStarting)] |}).
  destruct (get_services_run env w0) as [entry ->].
  rewrite (get_services_value env w0 w).
  destruct (get_services_from_netbox env w).1 as [|service rest]; [done|].
  set (services := service :: rest).
  set (w1 := {| fs := fs w0; log := log w0 ++ [entry] |}).
  set (new_config := generate_main_caddyfile self env services).
  pose proof (validate_result env new_config w1) as Hvalid.
  pose proof (validate_frame env new_config w1) as Hframe.
  pose proof (validate_completed_removes_temp_file env new_config w1) as Hclean.
  destruct (validate_caddy_config env new_config w1) as [valid w2].
  cbn [fst snd] in Hvalid, Hframe, Hclean. rewrite Hvalid, Hreject.
  cbn [negb logger ret fst snd fs log]. repeat split.
  - by rewrite last_snoc.
  - apply Hframe, not_eq_sym, temp_file_path_not_main.
  - exact Hframe.
  - intros rc err Hrun Hfresh. by apply (Hclean rc err Hrun).
Qed.


Lemma validation_failure_leaves_config_witness :
  (update_caddy_configuration Sample.self Sample.env_invalid Sample.world_running).1
  = false /\
  last (log (update_caddy_configuration
               Sample.self Sample.env_invalid Sample.world_running).2)
  = Some (ERROR, ValidationFailedAborting) /\
  fs (update_caddy_configuration
        Sample.self Sample.env_invalid Sample.world_running).2 !! main_caddyfile
  = fs Sample.world_running !! main_caddyfile /\
  (forall p, p <> temp_file_path Sample.env_invalid ->
             fs (update_caddy_configuration
                   Sample.self Sample.env_invalid Sample.world_running).2 !! p
             = fs Sample.world_running !! p) /\
  (forall returncode stderr,
      validate_run Sample.env_invalid = Completed returncode stderr ->
      fs Sample.world_running !! temp_file_path Sample.env_invalid = None ->
      fs (update_caddy_configuration
            Sample.self Sample.env_invalid Sample.world_running).2
      = fs Sample.world_running).
Proof.
  apply (validation_failure_leaves_config
           Sample.self Sample.env_invalid Sample.world_running).
  - vm_compute. discriminate.
  - reflexivity.
Defined.

(** *** Backup, activation and rollback *)

Lemma run_ok_completed (r : Run) :
  run_ok r = true -> exists stderr, r = Completed 0 stderr.
Proof.
  destruct r as [rc err|e]; cbn; [|done].
  intros H%Z.eqb_eq. subst. by eexists.
Qed.

Lemma backup_run_present (env : Env) (w : World) (c : string) :
  fs w !! main_caddyfile = Some c ->
  backup_current_config env w
  = (backup_path env,
     {| fs := <[backup_path env := c]> (fs w);
        log := log w ++ [(INFO, BackedUp (backup_path env))] |}).
Proof.
  intros H. unfold backup_current_config, bind, exists_file.
  rewrite bool_decide_eq_true_2 by (rewrite H; eauto).
  unfold copy2. by rewrite H.
Qed.

Lemma backup_run_absent (env : Env) (w : World) :
  fs w !! main_caddyfile = None ->
  backup_current_config env w = (EmptyString, w).
Proof.
  intros H. unfold backup_current_config, bind, exists_file.
  rewrite bool_decide_eq_false_2; [done|].
  rewrite H. by intros [? ?].
Qed.

Lemma reload_run_result (env : Env) (w : World) :
  exists entry,
    reload_caddy env w
    = (run_ok (reload_run env), {| fs := fs w; log := log w ++ [entry] |}).
Proof.
  unfold reload_caddy. destruct (reload_run env) as [rc err|e]; cbn [run_ok].
  - destruct (rc =? 0); by eexists.
  - by eexists.
Qed.

Lemma restore_run_present (b : string) (l : Level) (m : Msg) (w : World) (c : string) :
  String.eqb b EmptyString = false ->
  fs w !! b = Some c ->
  restore_backup b l m w
  = (tt, {| fs := <[main_caddyfile := c]> (fs w); log := log w ++ [(l, m)] |}).
Proof.
  intros Hb H. unfold restore_backup, bind, exists_file. rewrite Hb. cbn [negb].
  rewrite bool_decide_eq_true_2 by (rewrite H; eauto).
  unfold copy2. by rewrite H.
Qed.

Lemma restore_run_no_backup (l : Level) (m : Msg) (w : World) :
  restore_backup EmptyString l m w = (tt, w).
Proof. reflexivity. Qed.


(** C1, amended. When an active Caddyfile exists before the cycle, the new
    configuration is written and the reload fails, the cycle copies the
    backup it has just made back over the Caddyfile: afterwards the
    Caddyfile holds its content of before the cycle, the backup holds it
    too, the cycle returns [False] and its last log entry is the error
    "Caddy reload failed, restored backup configuration". *)
Theorem activation_failure_restores_backup
        (self : CaddyServiceManager) (env : Env) (w : World) (c : string) :
  fs w !! main_caddyfile = Some c ->
  (get_services_from_netbox env w).1 <> [] ->
  run_ok (validate_run env) = true ->
  write_result env = Written ->
  run_ok (reload_run env) = false ->
  (update_caddy_configuration self env w).1 = false /\
  fs (update_caddy_configuration self env w).2 !! main_caddyfile = Some c /\
  fs (update_caddy_configuration self env w).2 !! backup_path env = Some c /\
  last (log (update_caddy_configuration self env w).2)
  = Some (ERROR, ReloadFailedRestoredBackup).
Proof.
  intros Hmain Hservices Hvalid Hwrite Hreload.
  unfold update_caddy_configuration, bind. cbn [logger].
  set (w0 := {| fs := fs w; log := log w ++ [(INFO, UpdateStarting)] |}).
  destruct (get_services_run env w0) as [entry ->].
  rewrite (get_services_value env w0 w).
  destruct (get_services_from_netbox env w).1 as [|service rest]; [done|].
  set (services := service :: rest).
  set (w1 := {| fs := fs w0; log := log w0 ++ [entry] |}).
  set (new_config := generate_main_caddyfile self env services).
  pose proof (validate_result env new_config w1) as Hres.
  pose proof (validate_frame env new_config w1 main_caddyfile
                (not_eq_sym (temp_file_path_not_main env))) as Hframe.
  destruct (validate_caddy_config env new_config w1) as [valid w2].
  cbn [fst snd] in Hres, Hframe. rewrite Hres, Hvalid. cbn [negb].
  rewrite (backup_run_present env w2 c) by (rewrite Hframe; exact Hmain).
  rewrite Hwrite. cbn [write_file logger fs log].
  match goal with
  | |- context [reload_caddy env ?w3] =>
      destruct (reload_run_result env w3) as [entry' ->]
  end.
  rewrite Hreload. cbn [fs log].
  erewrite restore_run_present; [|apply backup_path_not_empty|].
  2:{ cbn [fs]. rewrite lookup_insert_ne by apply not_eq_sym, backup_path_not_main.
      apply lookup_insert_eq. }
  unfold ret. cbn [fst snd fs log]. repeat split.
  - apply lookup_insert_eq.
  - rewrite lookup_insert_ne by apply not_eq_sym, backup_path_not_main.
    rewrite lookup_insert_ne by apply not_eq_sym, backup_path_not_main.
    apply lookup_insert_eq.
  - by rewrite last_snoc.
Qed.


Lemma activation_failure_restores_backup_witness :
  (update_caddy_configuration
     Sample.self Sample.env_reload_failed Sample.world_running).1 = false /\
  fs (update_caddy_configuration
        Sample.self Sample.env_reload_failed Sample.world_running).2
    !! main_caddyfile = Some "# previous Caddyfile" /\
  fs (update_caddy_configuration
        Sample.self Sample.env_reload_failed Sample.world_running).2
    !! backup_path Sample.env_reload_failed = Some "# previous Caddyfile" /\
  last (log (update_caddy_configuration
               Sample.self Sample.env_reload_failed Sample.world_running).2)
  = Some (ERROR, ReloadFailedRestoredBackup).
Proof.
  apply (activation_failure_restores_backup
           Sample.self Sample.env_reload_failed Sample.world_running).
  - reflexivity.
  - vm_compute. discriminate.
  - reflexivity.
  - reflexivity.
  - reflexivity.
Defined.

(** C1, as stated: when no Caddyfile exists before the cycle there is no
    backup to restore, and after the failed reload the active path holds
    the new configuration; nothing about a rollback is logged. *)
Lemma activation_failure_without_backup_keeps_new_config :
  fs Sample.world_fresh !! main_caddyfile = None /\
  fs (update_caddy_configuration
        Sample.self Sample.env_reload_failed Sample.world_fresh).2
    !! main_caddyfile
  = Some (generate_main_caddyfile Sample.self Sample.env_reload_failed
                                  [Sample.gitlab_service]) /\
  update_caddy_configuration Sample.self Sample.env_reload_failed Sample.world_fresh
  = (false,
     {| fs := {[ main_caddyfile :=
                   generate_main_caddyfile Sample.self Sample.env_reload_failed
                                           [Sample.gitlab_service] ]};
        log := [(INFO, UpdateStarting);
                (INFO, NetboxRetrieved 1);
                (INFO, ConfigValid);
                (INFO, CaddyfileUpdated 1);
                (ERROR, ReloadFailed "loading new config: bind: address in use")] |}).
Proof. repeat split; vm_compute; reflexivity. Qed.


(** *** No services *)

(** C5, as stated: the return value of a cycle that found no services is
    that of a cycle whose candidate was rejected, a cycle that could not
    reach NetBox ends exactly as one that was told of no services (up to
    the log entry of the fetch), and [main] exits with status 1. *)
Lemma no_services_reported_as_failure :
  (update_caddy_configuration
     Sample.self Sample.env_no_services Sample.world_running).1
  = (update_caddy_configuration
       Sample.self Sample.env_invalid Sample.world_running).1 /\
  (update_caddy_configuration
     Sample.self Sample.env_unreachable Sample.world_running).1
  = (update_caddy_configuration
       Sample.self Sample.env_no_services Sample.world_running).1 /\
  last (log (update_caddy_configuration
               Sample.self Sample.env_unreachable Sample.world_running).2)
  = last (log (update_caddy_configuration
                 Sample.self Sample.env_no_services Sample.world_running).2) /\
  (main Sample.self Sample.env_no_services ArgUpdate Sample.world_running).1 = 1 /\
  (main Sample.self Sample.env_no_services ArgUpdate Sample.world_running).1 <> 0.
Proof. repeat split; vm_compute; done. Qed.

(** C5, amended. When the fetch yields no service the cycle ends at once:
    no file is touched, the last log entry is the warning "No services
    found in NetBox", the cycle returns [False] and [main --update] exits
    with status 1. *)
Theorem no_services_ends_cycle
        (self : CaddyServiceManager) (env : Env) (w : World) :
  (get_services_from_netbox env w).1 = [] ->
  (update_caddy_configuration self env w).1 = false /\
  fs (update_caddy_configuration self env w).2 = fs w /\
  last (log (update_caddy_configuration self env w).2)
  = Some (WARNING, NoServicesFound) /\
  (main self env ArgUpdate w).1 = 1.
Proof.
  intros Hnone.
  assert (Hupdate : exists entry,
             update_caddy_configuration self env w
             = (false, {| fs := fs w;
                          log := ((log w ++ [(INFO, UpdateStarting)]) ++ [entry])
                                 ++ [(WARNING, NoServicesFound)] |})).
  { unfold update_caddy_configuration, bind. cbn [logger].
    set (w0 := {| fs := fs w; log := log w ++ [(INFO, UpdateStarting)] |}).
    destruct (get_services_run env w0) as [entry ->].
    rewrite (get_services_value env w0 w), Hnone. by exists entry. }
  destruct Hupdate as [entry Hupdate].
  unfold main, bind. rewrite Hupdate. cbn. repeat split.
  by rewrite last_snoc.
Qed.

Lemma no_services_ends_cycle_witness :
  (update_caddy_configuration
     Sample.self Sample.env_unreachable Sample.world_running).1 = false /\
  fs (update_caddy_configuration
        Sample.self Sample.env_unreachable Sample.world_running).2
  = fs Sample.world_running /\
  last (log (update_caddy_configuration
               Sample.self Sample.env_unreachable Sample.world_running).2)
  = Some (WARNING, NoServicesFound) /\
  (main Sample.self Sample.env_unreachable ArgUpdate Sample.world_running).1 = 1.
Proof.
  apply (no_services_ends_cycle
           Sample.self Sample.env_unreachable Sample.world_running).
  reflexivity.
Defined.

(** *** The validator's temporary file *)

(** When [subprocess.run] raises, the [except] clause is entered before
    [os.unlink]: the temporary file stays. *)
Lemma validate_raised_leaves_temp_file
      (env : Env) (c : string) (w : World) (e : string) :
  validate_run env = RunRaised e ->
  (validate_caddy_config env c w).1 = false /\
  fs (validate_caddy_config env c w).2 !! temp_file_path env = Some c.
Proof.
  intros H. rewrite (validate_run_raised _ _ _ _ H). cbn [fst snd fs].
  split; [done|]. apply lookup_insert_eq.
Qed.

(** The validator never changes the active Caddyfile. *)
Lemma validate_keeps_active_config (env : Env) (c : string) (w : World) :
  fs (validate_caddy_config env c w).2 !! main_caddyfile = fs w !! main_caddyfile.
Proof. apply validate_frame, not_eq_sym, temp_file_path_not_main. Qed.

(** C9, at the failing input: the checker times out; [validate] returns
    [False] and the temporary file, which did not exist before the call,
    is still there with the candidate in it. *)
Theorem validate_timeout_leaves_temp_file :
  fs Sample.world_running !! temp_file_path Sample.env_validate_timeout = None /\
  (validate_caddy_config Sample.env_validate_timeout "candidate"
                         Sample.world_running).1 = false /\
  fs (validate_caddy_config Sample.env_validate_timeout "candidate"
                            Sample.world_running).2
    !! temp_file_path Sample.env_validate_timeout
  = Some "candidate".
Proof.
  split; [vm_compute; reflexivity|].
  by apply (validate_raised_leaves_temp_file _ _ _ "TimeoutExpired").
Qed.


(** *** Adding a service by hand *)

(** The active Caddyfile a call of [add_service_manually] leaves is the
    one [update_caddy_configuration] renders from NetBox's services: the
    service given by hand is written to a file of its own under
    [services/], which nothing reads. *)
Lemma add_service_manually_unfold
      (self : CaddyServiceManager) (env : Env) (w : World)
      (hostname ip : string) (port : Z) (service_type : string) :
  exists service_file service_config,
    add_service_manually self env hostname ip port service_type w
    = update_caddy_configuration self env
        {| fs := <[service_file := service_config]> (fs w);
           log := log w ++ [(INFO, AddingManually hostname ip port)] |}.
Proof.
  unfold add_service_manually, bind. cbn [logger write_file fs log].
  do 2 eexists. reflexivity.
Qed.

(** C7, at the failing input: NetBox lists gitlab only and "wiki" is added
    by hand.  The call succeeds, the block of "wiki" is in its service
    file, and the active Caddyfile is the document rendered for gitlab
    alone, in which "wiki" does not occur. *)
Theorem add_service_manually_not_in_active_config :
  (add_service_manually Sample.self Sample.env_ok
                        "wiki.doofus.co" "10.203.1.9" 8080 "web"
                        Sample.world_running).1 = true /\
  fs (add_service_manually Sample.self Sample.env_ok
                           "wiki.doofus.co" "10.203.1.9" 8080 "web"
                           Sample.world_running).2
    !! main_caddyfile
  = Some (generate_main_caddyfile Sample.self Sample.env_ok [Sample.gitlab_service]) /\
  Str.contains "wiki"
    (generate_main_caddyfile Sample.self Sample.env_ok [Sample.gitlab_service])
  = false /\
  fs (add_service_manually Sample.self Sample.env_ok
                           "wiki.doofus.co" "10.203.1.9" 8080 "web"
                           Sample.world_running).2
    !! "/opt/caddy/services/wiki_doofus_co.caddyfile"
  = Some (generate_service_config Sample.self
            {| hostname := "wiki.doofus.co"; ip := "10.203.1.9";
               service_type := "web"; service_port := 8080;
               service_protocol := "http"; custom_config := None |}).
Proof. repeat split; vm_compute; reflexivity. Qed.

End ReconcilerSpec.

(** ** The discovery run *)

Module DiscoverySpec.
Import Discovery.

Lemma update_netbox_ip_refused (env : Env) (host : Host) (w : World) :
  upsert_ok env host = false -> update_netbox_ip env host w = (false, w).
Proof.
  unfold upsert_ok, update_netbox_ip, accepted.
  destruct (netbox_write env (netbox_data_of host)) as [code|e]; [|done].
  by intros ->.
Qed.

Lemma update_netbox_ip_accepted (env : Env) (host : Host) (w : World) :
  upsert_ok env host = true ->
  exists stored,
    nb_address stored = ip host /\ cf_last_seen stored = last_seen host /\
    update_netbox_ip env host w
    = (true, {| netbox_ips := <[ip host := stored]> (netbox_ips w);
                dns_records := dns_records w |}).
Proof.
  unfold upsert_ok, update_netbox_ip, accepted.
  destruct (netbox_write env (netbox_data_of host)) as [code|e]; [|done].
  intros ->. destruct (netbox_ips w !! ip host) as [old|];
    [exists (patch old (netbox_data_of host)) | exists (netbox_data_of host)];
    done.
Qed.

Lemma sync_to_dns_frame (env : Env) (host : Host) (w : World) :
  netbox_ips (sync_to_dns env host w).2 = netbox_ips w.
Proof.
  unfold sync_to_dns.
  destruct (technitium_token env) as [[|? ?]|]; try done.
  destruct (hostname host) as [[|? ?]|]; try done.
  destruct (dns_add env _ _) as [code|e]; [|done].
  by destruct (code =? 200).
Qed.


(** One turn of the loop: the counters move by one, [updated_hosts] only
    when NetBox accepted the record, and the store changes at the address
    of the host at most. *)
Lemma process_host_spec (env : Env) (host : Host) (report : Report) (w : World) :
  total_hosts (process_host env host report w).1 = total_hosts report + 1 /\
  active_hosts (process_host env host report w).1 = active_hosts report + 1 /\
  updated_hosts (process_host env host report w).1
  = updated_hosts report + (if upsert_ok env host then 1 else 0) /\
  (upsert_ok env host = true -> recorded (process_host env host report w).2 (ip host)) /\
  (forall a, upsert_ok env host = false \/ a <> ip host ->
             netbox_ips (process_host env host report w).2 !! a
             = netbox_ips w !! a).
Proof.
  unfold process_host, bind.
  set (scanned := if interesting host
                  then (set_services host (service_scan env (ip host)),
                        Z.of_nat (length (services
                                            (set_services host
                                               (service_scan env (ip host))))))
                  else (host, 0)).
  assert (Hip : ip scanned.1 = ip host)
    by (subst scanned; by destruct (interesting host)).
  assert (Hsame : upsert_ok env scanned.1 = upsert_ok env host)
    by (subst scanned; by destruct (interesting host)).
  rewrite <- Hip, <- Hsame. destruct scanned as [host' found]. cbn [fst].
  clear Hip Hsame.
  destruct (upsert_ok env host') eqn:Hok.
  - destruct (update_netbox_ip_accepted env host' w Hok)
      as (stored & Haddr & _ & ->).
    pose proof (sync_to_dns_frame env host'
                  {| netbox_ips := <[ip host' := stored]> (netbox_ips w);
                     dns_records := dns_records w |}) as Hdns.
    destruct (sync_to_dns env host' _) as [synced w2].
    cbn [fst snd] in *. cbn [ret fst snd total_hosts active_hosts updated_hosts].
    unfold recorded. rewrite Hdns. cbn [netbox_ips]. repeat split.
    + intros _. exists stored. split; [apply lookup_insert_eq | done].
    + intros a [?| Ha]; [done|]. by apply lookup_insert_ne.
  - rewrite (update_netbox_ip_refused env host' w Hok).
    pose proof (sync_to_dns_frame env host' w) as Hdns.
    destruct (sync_to_dns env host' w) as [synced w2].
    cbn [fst snd] in *. cbn [ret fst snd total_hosts active_hosts updated_hosts].
    rewrite Hdns. repeat split; try done; lia.
Qed.


Lemma process_host_keeps_recorded
      (env : Env) (host : Host) (report : Report) (w : World) (a : string) :
  recorded w a -> recorded (process_host env host report w).2 a.
Proof.
  intros Hrec.
  destruct (process_host_spec env host report w) as (_ & _ & _ & Hnew & Hframe).
  destruct (decide (a = ip host)) as [->|Hne].
  - destruct (upsert_ok env host) eqn:Hok; [by apply Hnew|].
    unfold recorded. rewrite Hframe by (by left). exact Hrec.
  - unfold recorded. rewrite Hframe by (by right). exact Hrec.
Qed.

Lemma process_hosts_keeps_recorded
      (env : Env) (hosts : list Host) (report : Report) (w : World) (a : string) :
  recorded w a -> recorded (process_hosts env hosts report w).2 a.
Proof.
  revert report w. induction hosts as [|host rest IH]; intros report w Hrec;
    [done|].
  cbn [process_hosts]. unfold bind.
  pose proof (process_host_keeps_recorded env host report w a Hrec) as H1.
  destruct (process_host env host report w) as [report1 w1]. by apply IH.
Qed.

(** The loop over the hosts: every host is counted, [updated_hosts] counts
    the hosts NetBox accepted, every accepted host is recorded at the end,
    and an address no accepted host carries is as it was. *)
Lemma process_hosts_spec (env : Env) (hosts : list Host) (report : Report) (w : World) :
  total_hosts (process_hosts env hosts report w).1
  = total_hosts report + Z.of_nat (length hosts) /\
  active_hosts (process_hosts env hosts report w).1
  = active_hosts report + Z.of_nat (length hosts) /\
  updated_hosts (process_hosts env hosts report w).1
  = updated_hosts report + Z.of_nat (length (List.filter (upsert_ok env) hosts)) /\
  (forall h, h ∈ hosts -> upsert_ok env h = true ->
             recorded (process_hosts env hosts report w).2 (ip h)) /\
  (forall a, (forall h, h ∈ hosts -> upsert_ok env h = true -> ip h <> a) ->
             netbox_ips (process_hosts env hosts report w).2 !! a
             = netbox_ips w !! a).
Proof.
  revert report w. induction hosts as [|host rest IH]; intros report w.
  - cbn. repeat split; try lia. intros h Hin. inversion Hin.
  - cbn [process_hosts]. unfold bind.
    destruct (process_host_spec env host report w)
      as (Htotal & Hactive & Hupdated & Hnew & Hframe).
    pose proof (process_hosts_keeps_recorded env rest) as Hkeep.
    destruct (process_host env host report w) as [report1 w1].
    cbn [fst snd] in *.
    destruct (IH report1 w1) as (IHtotal & IHactive & IHupdated & IHnew & IHframe).
    rewrite IHtotal, IHactive, IHupdated, Htotal, Hactive, Hupdated.
    cbn [length List.filter]. repeat split.
    + lia.
    + lia.
    + destruct (upsert_ok env host); cbn [length]; lia.
    + intros h [->|Hin]%elem_of_cons Hok; [|by apply IHnew].
      apply Hkeep. by apply Hnew.
    + intros a Ha. rewrite IHframe.
      * apply Hframe. destruct (upsert_ok env host) eqn:Hok; [right|by left].
        apply not_eq_sym, Ha; [by left|done].
      * intros h Hin. apply Ha. by right.
Qed.

Lemma process_hosts_app (env : Env) (l1 l2 : list Host) (report : Report) (w : World) :
  process_hosts env (l1 ++ l2) report w
  = process_hosts env l2 (process_hosts env l1 report w).1
                         (process_hosts env l1 report w).2.
Proof.
  revert report w. induction l1 as [|host rest IH]; intros report w; [done|].
  cbn [app process_hosts]. unfold bind.
  destruct (process_host env host report w) as [report1 w1]. apply IH.
Qed.

(** The loop over the networks processes the hosts of all networks in
    turn: a network whose scan yields nothing stops nothing. *)
Lemma process_networks_hosts (env : Env) (networks : list string)
      (report : Report) (w : World) :
  process_networks env networks report w
  = process_hosts env
      (flat_map (fun network => network_scan env (Str.strip network)) networks)
      report w.
Proof.
  revert report w. induction networks as [|network rest IH]; intros report w;
    [done|].
  cbn [process_networks flat_map]. unfold bind. rewrite process_hosts_app.
  destruct (process_hosts env _ report w) as [report1 w1]. apply IH.
Qed.


Lemma filter_all_true {A} (f : A -> bool) (l : list A) :
  (forall x, x ∈ l -> f x = true) -> List.filter f l = l.
Proof.
  induction l as [|x l IH]; intros H; [done|]. cbn.
  rewrite (H x) by left. f_equal. apply IH. intros y Hy. apply H. by right.
Qed.

(** C8. Partial tolerance: in a run over the hosts [before ++ failed ::
    after] in which NetBox refuses the record of [failed] and accepts those
    of the others, the run completes, every host is counted in
    [total_hosts] and [active_hosts], [updated_hosts] falls short of
    [total_hosts] by exactly one, every other host has its record in
    NetBox afterwards, and the record at the address of the failed host,
    if no other host shares the address, is as it was. *)
Theorem discovery_tolerates_failed_upsert
        (env : Env) (w : World) (before after : list Host) (failed : Host) :
  connection_ok env = true ->
  is_Some (site_id env) ->
  cycle_hosts env = before ++ failed :: after ->
  upsert_ok env failed = false ->
  (forall h, h ∈ before ++ after -> upsert_ok env h = true) ->
  exists report,
    (run_discovery env w).1 = Finished report /\
    status report = Some "completed" /\
    total_hosts report = Z.of_nat (length (before ++ failed :: after)) /\
    active_hosts report = total_hosts report /\
    total_hosts report - updated_hosts report = 1 /\
    (forall h, h ∈ before ++ after -> recorded (run_discovery env w).2 (ip h)) /\
    ((forall h, h ∈ before ++ after -> ip h <> ip failed) ->
     netbox_ips (run_discovery env w).2 !! ip failed
     = netbox_ips w !! ip failed).
Proof.
  intros Hconn [site Hsite] Hhosts Hfailed Hothers.
  unfold run_discovery. rewrite Hconn, Hsite. cbn [negb]. unfold bind.
  rewrite process_networks_hosts. fold (cycle_hosts env). rewrite Hhosts.
  destruct (process_hosts_spec env (before ++ failed :: after)
              (generate_network_report env) w)
    as (Htotal & Hactive & Hupdated & Hnew & Hframe).
  destruct (process_hosts env _ _ w) as [report w']. cbn [fst snd ret] in *.
  eexists. split; [reflexivity|].
  cbn [status total_hosts active_hosts updated_hosts].
  rewrite Htotal, Hactive, Hupdated. cbn [generate_network_report total_hosts
    active_hosts updated_hosts].
  assert (Hcount : List.filter (upsert_ok env) (before ++ failed :: after)
                   = before ++ after).
  { rewrite List.filter_app. cbn [List.filter]. rewrite Hfailed.
    rewrite !filter_all_true; [done| |];
      intros h Hin; apply Hothers, elem_of_app; auto. }
  rewrite Hcount, !length_app. cbn [length]. repeat split.
  - lia.
  - intros h Hin. apply Hnew; [|by apply Hothers].
    apply elem_of_app in Hin as [Hin|Hin]; apply elem_of_app;
      [by left | right; by right].
  - intros Hne. apply Hframe. intros h Hin Hok.
    apply elem_of_app in Hin as [Hin|[->|Hin]%elem_of_cons].
    + apply Hne, elem_of_app. by left.
    + congruence.
    + apply Hne, elem_of_app. by right.
Qed.

Lemma discovery_tolerates_failed_upsert_witness :
  exists report,
    (run_discovery Sample.discovery_env Sample.discovery_world).1
    = Finished report /\
    status report = Some "completed" /\
    total_hosts report = 3 /\
    active_hosts report = total_hosts report /\
    total_hosts report - updated_hosts report = 1 /\
    (forall h, h ∈ [Sample.host "10.203.1.1" (Some "gw.doofus.co")]
                   ++ [Sample.host "10.203.1.5" (Some "gitlab.doofus.co")] ->
               recorded (run_discovery Sample.discovery_env
                                       Sample.discovery_world).2 (ip h)) /\
    ((forall h, h ∈ [Sample.host "10.203.1.1" (Some "gw.doofus.co")]
                    ++ [Sample.host "10.203.1.5" (Some "gitlab.doofus.co")] ->
                ip h <> ip (Sample.host "10.203.1.72" None)) ->
     netbox_ips (run_discovery Sample.discovery_env Sample.discovery_world).2
       !! ip (Sample.host "10.203.1.72" None)
     = netbox_ips Sample.discovery_world !! ip (Sample.host "10.203.1.72" None)).
Proof.
  apply (discovery_tolerates_failed_upsert
           Sample.discovery_env Sample.discovery_world
           [Sample.host "10.203.1.1" (Some "gw.doofus.co")]
           [Sample.host "10.203.1.5" (Some "gitlab.doofus.co")]
           (Sample.host "10.203.1.72" None)).
  - reflexivity.
  - by eexists.
  - reflexivity.
  - reflexivity.
  - intros h [->|[->|Hin]%elem_of_cons]%elem_of_cons; [reflexivity ..|].
    inversion Hin.
Defined.

End DiscoverySpec.

(** ** More on strings *)

Section StrMoreFacts.

Lemma startswith_app_same (p t : string) : Str.startswith p (p +:+ t) = true.
Proof.
  induction p as [|a p IH]; [by destruct t|].
  rewrite app_cons. cbn [Str.startswith]. by rewrite Ascii.eqb_refl.
Qed.

Lemma startswith_inv (p s : string) :
  Str.startswith p s = true -> exists t, s = p +:+ t.
Proof.
  revert s. induction p as [|a p IH]; intros s H; [by exists s|].
  destruct s as [|b s]; [done|]. cbn [Str.startswith] in H.
  destruct (Ascii.eqb a b) eqn:Hab; [|done].
  apply Ascii.eqb_eq in Hab as ->. destruct (IH s H) as [t ->]. by exists t.
Qed.

Lemma contains_startswith (sub s : string) :
  Str.startswith sub s = true -> Str.contains sub s = true.
Proof. intros H. destruct s; cbn [Str.contains]; by rewrite H. Qed.

Lemma contains_cons (sub : string) (c : ascii) (s : string) :
  Str.contains sub s = true -> Str.contains sub (String c s) = true.
Proof. intros H. cbn [Str.contains]. rewrite H. apply orb_true_r. Qed.

Lemma contains_app_r (sub pre t : string) :
  Str.contains sub t = true -> Str.contains sub (pre +:+ t) = true.
Proof.
  intros H. induction pre as [|c pre IH]; [done|].
  rewrite app_cons. by apply contains_cons.
Qed.

Lemma contains_app_l (sub t post : string) :
  Str.contains sub t = true -> Str.contains sub (t +:+ post) = true.
Proof.
  induction t as [|c t IH]; cbn [Str.contains].
  - rewrite orb_false_r. intros H. destruct sub; [|done].
    by apply contains_startswith.
  - intros [H|H]%orb_true_iff.
    + apply contains_startswith. by apply startswith_app.
    + rewrite app_cons. by apply contains_cons, IH.
Qed.

(** A string occurs in whatever is put around it. *)
Lemma contains_mid (sub pre post : string) :
  Str.contains sub (pre +:+ sub +:+ post) = true.
Proof. apply contains_app_r, contains_startswith, startswith_app_same. Qed.

Lemma rev_cons (c : ascii) (s : string) :
  Str.rev (String c s) = Str.rev s +:+ String c EmptyString.
Proof. unfold Str.rev at 1. cbn [Str.rev_onto]. apply rev_onto_spec. Qed.

Lemma rev_involutive (s : string) : Str.rev (Str.rev s) = s.
Proof.
  induction s as [|c s IH]; [reflexivity|].
  by rewrite rev_cons, rev_app, IH.
Qed.

(** A string that ends with a dot followed by something has a dot in it. *)
Lemma endswith_dot_contains (d s : string) :
  Str.endswith ("." +:+ d) s = true -> Str.contains "." s = true.
Proof.
  unfold Str.endswith. intros [t Ht]%startswith_inv.
  rewrite <- (rev_involutive s), Ht, rev_app, rev_involutive.
  apply contains_app_r, contains_startswith. reflexivity.
Qed.

Lemma contains_char_cons (c a : ascii) (s : string) :
  Str.contains (String c EmptyString) (String a s)
  = Ascii.eqb c a || Str.contains (String c EmptyString) s.
Proof.
  cbn [Str.contains Str.startswith]. destruct (Ascii.eqb c a); [|done].
  by destruct s.
Qed.

(** The part before the first [c] has no [c] in it. *)
Lemma before_char_no_char (c : ascii) (s : string) :
  Str.contains (String c EmptyString) (Str.before_char c s) = false.
Proof.
  induction s as [|a s IH]; [reflexivity|]. cbn [Str.before_char].
  destruct (Ascii.eqb a c) eqn:Hac; [reflexivity|].
  by rewrite contains_char_cons, Ascii.eqb_sym, Hac, IH.
Qed.

Lemma lower_char_idem (c : ascii) : Str.lower_char (Str.lower_char c) = Str.lower_char c.
Proof. by destruct c as [[] [] [] [] [] [] [] []]. Qed.

Lemma lower_idem (s : string) : Str.lower (Str.lower s) = Str.lower s.
Proof.
  induction s as [|c s IH]; [reflexivity|].
  cbn [Str.lower]. by rewrite lower_char_idem, IH.
Qed.

Lemma contains_10_contains_1 (s : string) :
  Str.contains "10" s = true -> Str.contains "1" s = true.
Proof.
  induction s as [|a s IH]; [done|].
  rewrite contains_char_cons. cbn [Str.contains Str.startswith].
  destruct (Ascii.eqb "1" a); [done|]. cbn [orb]. exact IH.
Qed.

End StrMoreFacts.

(** ** More on the classifier and the renderer *)

Module CaddyMore.
Import Caddy CaddyTerms.

Lemma collect_services_fetched (results : list IpData)
      (named_before : list IpData) (services : list Service) :
  Forall2 fetched_from named_before services ->
  Forall2 fetched_from (named_before ++ List.filter named results)
          (collect_services results services).
Proof.
  revert named_before services.
  induction results as [|d results IH]; intros pre services Hpre.
  - cbn. by rewrite app_nil_r.
  - cbn [collect_services List.filter]. unfold named at 1.
    destruct (dns_name d) as [[|a h]|] eqn:Hd; [by apply IH| |by apply IH].
    destruct (CaddySpec.detect_services_singleton (String a h)
                (Str.before_char "/" (address d)) (custom_fields d))
      as [[ty po pr] Hdet].
    rewrite Hdet. cbn [map].
    replace (pre ++ d :: List.filter named results)
      with ((pre ++ [d]) ++ List.filter named results)
      by (by rewrite <- app_assoc).
    apply IH, Forall2_app; [done|]. constructor; [|constructor].
    unfold fetched_from. cbn. repeat split; try done.
    apply before_char_no_char.
Qed.

(** X1. The services fetched from NetBox are, in order, one per entry that
    has a DNS name: the service carries that name, the address with its
    prefix length cut off (no "/" is left in it), and the one entry
    [detect_services] gives for the name. *)
Theorem fetched_services_match_named_entries (results : list IpData) :
  Forall2 fetched_from (List.filter named results) (collect_services results []).
Proof. apply (collect_services_fetched results [] []). constructor. Qed.

(** X2. Classification ignores the case of the host name, and it ignores
    the address and the custom fields. *)
Theorem detect_services_case_insensitive
        (hostname ip ip' : string) (custom_fields custom_fields' : list (string * string)) :
  detect_services (Str.lower hostname) ip custom_fields
  = detect_services hostname ip' custom_fields'.
Proof. unfold detect_services. by rewrite lower_idem. Qed.

Lemma check_patterns_from_table (patterns : list (string * Detected)) (hl : string) :
  check_patterns patterns hl [] = [] \/
  exists config, In config (map snd patterns) /\
                 check_patterns patterns hl [] = [config].
Proof.
  induction patterns as [|[t c] rest IH]; cbn [check_patterns]; [by left|].
  destruct (Str.contains t hl).
  - right. exists c. split; [by left|]. by rewrite CaddySpec.detected_eta.
  - destruct IH as [IH|(config & Hin & IH)]; [by left|].
    right. exists config. split; [by right|done].
Qed.

(** X3. Whatever the host name, the entry [detect_services] returns speaks
    http and its category and port are one of seven pairs; "secure_web" and
    "database_admin" of [service_rules] are never produced. *)
Theorem detect_services_range
        (hostname ip : string) (custom_fields : list (string * string)) :
  Forall (fun d => protocol d = "http" /\
                   In (type d, port d)
                      [("web", 80); ("web", 8080); ("monitoring", 3000);
                       ("monitoring", 9090); ("api", 8080); ("docs", 8000);
                       ("secure", 8080)])
         (detect_services hostname ip custom_fields).
Proof.
  unfold detect_services.
  destruct (check_patterns_from_table service_patterns (Str.lower hostname))
    as [-> | (config & Hin & ->)].
  - repeat constructor.
  - constructor; [|constructor]. cbn in Hin.
    repeat (destruct Hin as [<- | Hin]; [cbn; tauto|]). destruct Hin.
Qed.

(** X4. The host name of a block is the service's host name when that has a
    dot in it, and the host name followed by a dot and the base domain
    otherwise; the test for the domain suffix changes nothing.  Either way
    the result has a dot in it. *)
Theorem qualified_hostname_spec (self : CaddyServiceManager) (service : Service) :
  qualified_hostname self service
  = (if Str.contains "." (hostname service) then hostname service
     else hostname service +:+ "." +:+ domain self) /\
  Str.contains "." (qualified_hostname self service) = true.
Proof.
  assert (Heq : qualified_hostname self service
                = (if Str.contains "." (hostname service) then hostname service
                   else hostname service +:+ "." +:+ domain self)).
  { unfold qualified_hostname.
    destruct (Str.endswith ("." +:+ domain self) (hostname service)) eqn:Hend.
    - by rewrite (endswith_dot_contains _ _ Hend).
    - cbn [negb]. by destruct (Str.contains "." (hostname service)). }
  split; [exact Heq|]. rewrite Heq.
  destruct (Str.contains "." (hostname service)) eqn:Hdot; [done|].
  apply contains_mid.
Qed.

Lemma get_template_other (key : string) :
  key <> "api" -> key <> "secure" -> get_template key = web_template.
Proof.
  intros Hapi Hsecure. unfold get_template, service_templates. cbn [Str.kw_get].
  destruct (String.eqb "web" key); [done|].
  destruct (String.eqb "api" key) eqn:H1; [by apply String.eqb_eq in H1|].
  destruct (String.eqb "secure" key) eqn:H2; [by apply String.eqb_eq in H2|].
  done.
Qed.

(** X5. A category without a template of its own ("monitoring", "docs", or
    anything given on the command line) is rendered with the [web] template,
    unless the host name has "admin" in it. *)
Theorem category_without_template_renders_web
        (self : CaddyServiceManager) (service : Service) :
  Str.contains "admin" (hostname service) = false ->
  service_type service <> "api" ->
  service_type service <> "secure" ->
  Str.format web_template (format_args self service)
  = Some (generate_service_config self service).
Proof.
  intros Hadmin Hapi Hsecure.
  pose proof (CaddySpec.format_templates_defined self service) as [block Hblock].
  unfold generate_service_config. rewrite Hblock. cbn [default].
  unfold template_key in Hblock. rewrite Hadmin in Hblock.
  by rewrite get_template_other in Hblock.
Qed.

Lemma category_without_template_renders_web_witness :
  Str.format web_template (format_args Sample.self SampleMore.grafana_service)
  = Some (generate_service_config Sample.self SampleMore.grafana_service).
Proof.
  apply (category_without_template_renders_web Sample.self SampleMore.grafana_service).
  - reflexivity.
  - discriminate.
  - discriminate.
Defined.


(** X6. Every block, whichever template it is rendered from, starts with
    the same lines: the qualified host name, TLS by the Cloudflare DNS
    challenge, and a reverse proxy to the service's address and port; the
    values are put in as they are, braces included. *)
Theorem block_starts_with_proxy_lines (self : CaddyServiceManager) (service : Service) :
  exists rest,
    generate_service_config self service
    = proxy_block (qualified_hostname self service) (ip service)
                  (Str.of_int (service_port service)) rest.
Proof.
  unfold generate_service_config, format_args.
  generalize (qualified_hostname self service) (ip service)
    (Str.of_int (service_port service)) (Str.before_char "." (hostname service)).
  intros h i p s.
  destruct (CaddySpec.get_template_cases (template_key service)) as [-> | [-> | ->]];
    eexists; cbv; reflexivity.
Qed.

Lemma join_contains (sep x : string) (l : list string) :
  In x l -> Str.contains x (Str.join sep l) = true.
Proof.
  induction l as [|y l IH]; [done|]. intros [->|Hin].
  - destruct l as [|z l]; cbn [Str.join].
    + apply contains_startswith. rewrite <- (startswith_app_same x EmptyString) at 1.
      f_equal. induction x as [|c x IHx]; [done|]. by rewrite app_cons, <- IHx.
    + apply contains_startswith, startswith_app_same.
  - destruct l as [|z l]; [done|]. cbn [Str.join].
    do 2 apply contains_app_r. by apply IH.
Qed.

(** X7. The document starts with the header and the block of every service
    given occurs in it. *)
Theorem document_contains_every_block
        (self : CaddyServiceManager) (env : Env) (services : list Service)
        (service : Service) :
  In service services ->
  Str.startswith (header self (now_iso env))
                 (generate_main_caddyfile self env services) = true /\
  Str.contains (generate_service_config self service)
               (generate_main_caddyfile self env services) = true.
Proof.
  intros Hin. unfold generate_main_caddyfile.
  rewrite CaddySpec.append_configs_spec. cbn [app]. split.
  - apply startswith_app_same.
  - apply contains_app_r, join_contains, in_map, Hin.
Qed.

Lemma document_contains_every_block_witness :
  Str.startswith (header Sample.self (now_iso Sample.env_ok))
                 (generate_main_caddyfile Sample.self Sample.env_ok
                    [Sample.gitlab_service; SampleMore.grafana_service]) = true /\
  Str.contains (generate_service_config Sample.self SampleMore.grafana_service)
               (generate_main_caddyfile Sample.self Sample.env_ok
                  [Sample.gitlab_service; SampleMore.grafana_service]) = true.
Proof.
  apply (document_contains_every_block Sample.self Sample.env_ok
           [Sample.gitlab_service; SampleMore.grafana_service]
           SampleMore.grafana_service).
  right. left. reflexivity.
Defined.

End CaddyMore.

(** ** More on the update cycle *)

Module ReconcilerMore.
Import Caddy CaddyTerms ReconcilerSpec.

(** Logging the configured services changes no file. *)
Lemma log_services_result (services : list Service) (w : World) :
  for_each services (fun service =>
    logger INFO (ConfiguredService (hostname service) (ip service)
                                   (service_port service))) w
  = (tt, {| fs := fs w;
            log := log w ++ map (fun service =>
                                   (INFO, ConfiguredService (hostname service)
                                            (ip service) (service_port service)))
                                services |}).
Proof.
  revert w. induction services as [|s l IH]; intros w.
  - cbn. rewrite app_nil_r. by destruct w.
  - cbn [for_each map]. unfold bind. cbn [logger]. rewrite IH. cbn [fs log].
    by rewrite <- app_assoc.
Qed.

(** What a cycle returns and what it leaves on disk, case by case.  [F2] is
    the file system as validation left it: as before the cycle but for the
    validator's temporary file. *)
Lemma cycle_outcome (self : CaddyServiceManager) (env : Env) (w : World) :
  exists F2 : gmap string string,
    (forall p, p <> temp_file_path env -> F2 !! p = fs w !! p) /\
    ((update_caddy_configuration self env w).1,
     fs (update_caddy_configuration self env w).2)
    = match (get_services_from_netbox env w).1 with
      | [] => (false, fs w)
      | _ :: _ =>
          let doc := generate_main_caddyfile self env
                       (get_services_from_netbox env w).1 in
          if negb (run_ok (validate_run env)) then (false, F2)
          else
            let F3 := match fs w !! main_caddyfile with
                      | Some c => <[backup_path env := c]> F2
                      | None => F2
                      end in
            let restored F :=
              match fs w !! main_caddyfile with
              | Some c => <[main_caddyfile := c]> F
              | None => F
              end in
            match write_result env with
            | Written =>
                if run_ok (reload_run env) then (true, <[main_caddyfile := doc]> F3)
                else (false, restored (<[main_caddyfile := doc]> F3))
            | WriteRaised _ left_in_file =>
                (false,
                 restored match left_in_file with
                          | Some partial => <[main_caddyfile := partial]> F3
                          | None => F3
                          end)
            end
      end.
Proof.
  unfold update_caddy_configuration, bind. cbn [logger].
  set (w0 := {| fs := fs w; log := log w ++ [(INFO, UpdateStarting)] |}).
  destruct (get_services_run env w0) as [entry ->].
  rewrite (get_services_value env w0 w).
  destruct (get_services_from_netbox env w).1 as [|service rest];
    [by exists (fs w)|].
  set (services := service :: rest).
  set (w1 := {| fs := fs w0; log := log w0 ++ [entry] |}).
  set (doc := generate_main_caddyfile self env services).
  pose proof (validate_result env doc w1) as Hres.
  pose proof (validate_frame env doc w1) as Hframe.
  destruct (validate_caddy_config env doc w1) as [valid w2].
  cbn [fst snd] in Hres, Hframe. exists (fs w2). split; [exact Hframe|].
  rewrite Hres. destruct (run_ok (validate_run env)); cbn [negb]; [|done].
  assert (Hmain : fs w2 !! main_caddyfile = fs w !! main_caddyfile)
    by apply Hframe, not_eq_sym, temp_file_path_not_main.
  destruct (fs w !! main_caddyfile) as [c|] eqn:Hc.
  - rewrite (backup_run_present env w2 c Hmain).
    destruct (write_result env) as [|e left_in_file].
    + cbn [write_file logger fs log].
      match goal with
      | |- context [reload_caddy env ?w3] =>
          destruct (reload_run_result env w3) as [entry' ->]
      end.
      destruct (run_ok (reload_run env)).
      * cbn [logger fs log]. by rewrite log_services_result.
      * erewrite restore_run_present; [done|apply backup_path_not_empty|].
        cbn [fs]. rewrite lookup_insert_ne by apply not_eq_sym, backup_path_not_main.
        apply lookup_insert_eq.
    + assert (Hbackup : forall F : gmap string string,
                 match left_in_file with
                 | Some partial => <[main_caddyfile := partial]> (<[backup_path env := c]> F)
                 | None => <[backup_path env := c]> F
                 end !! backup_path env = Some c).
      { intros F. destruct left_in_file.
        - rewrite lookup_insert_ne by apply not_eq_sym, backup_path_not_main.
          apply lookup_insert_eq.
        - apply lookup_insert_eq. }
      destruct left_in_file as [partial|]; cbn [write_file ret logger fs log];
        (erewrite restore_run_present;
         [done | apply backup_path_not_empty | apply (Hbackup (fs w2))]).
  - rewrite (backup_run_absent env w2 Hmain).
    destruct (write_result env) as [|e left_in_file].
    + cbn [write_file logger fs log].
      match goal with
      | |- context [reload_caddy env ?w3] =>
          destruct (reload_run_result env w3) as [entry' ->]
      end.
      destruct (run_ok (reload_run env)).
      * cbn [logger fs log]. by rewrite log_services_result.
      * by rewrite restore_run_no_backup.
    + destruct left_in_file as [partial|]; cbn [write_file ret logger fs log];
        by rewrite restore_run_no_backup.
Qed.


(** The return value of a cycle depends on the collaborators only. *)
Lemma cycle_result (self : CaddyServiceManager) (env : Env) (w : World) :
  (update_caddy_configuration self env w).1
  = match (get_services_from_netbox env w).1 with
    | [] => false
    | _ :: _ =>
        run_ok (validate_run env) &&
        match write_result env with
        | Written => run_ok (reload_run env)
        | WriteRaised _ _ => false
        end
    end.
Proof.
  destruct (cycle_outcome self env w) as (F2 & _ & Hout).
  apply (f_equal fst) in Hout. cbn [fst] in Hout. rewrite Hout.
  destruct (get_services_from_netbox env w).1; [done|]. cbn zeta.
  destruct (run_ok (validate_run env)); [|done].
  destruct (write_result env); [|done].
  by destruct (run_ok (reload_run env)).
Qed.

(** The Caddyfile a cycle leaves, from the Caddyfile before it and the
    answers of the collaborators. *)
Lemma cycle_active_config (self : CaddyServiceManager) (env : Env) (w : World) :
  fs (update_caddy_configuration self env w).2 !! main_caddyfile
  = match (get_services_from_netbox env w).1 with
    | [] => fs w !! main_caddyfile
    | _ :: _ =>
        if negb (run_ok (validate_run env)) then fs w !! main_caddyfile
        else
          match write_result env, fs w !! main_caddyfile with
          | Written, previous =>
              if run_ok (reload_run env)
              then Some (generate_main_caddyfile self env
                           (get_services_from_netbox env w).1)
              else match previous with
                   | Some c => Some c
                   | None => Some (generate_main_caddyfile self env
                                     (get_services_from_netbox env w).1)
                   end
          | WriteRaised _ _, Some c => Some c
          | WriteRaised _ left_in_file, None => left_in_file
          end
    end.
Proof.
  destruct (cycle_outcome self env w) as (F2 & Hframe & Hout).
  apply (f_equal snd) in Hout. cbn [snd] in Hout. rewrite Hout. clear Hout.
  pose proof (Hframe main_caddyfile (not_eq_sym (temp_file_path_not_main env)))
    as Hmain.
  pose proof (backup_path_not_main env) as Hne.
  destruct (get_services_from_netbox env w).1; [done|]. cbn zeta.
  destruct (run_ok (validate_run env)); cbn [negb]; [|done].
  destruct (write_result env) as [|e [partial|]];
    destruct (fs w !! main_caddyfile) as [c|];
    try destruct (run_ok (reload_run env));
    by simplify_map_eq.
Qed.

(** A cycle touches three paths at most. *)
Lemma cycle_frame (self : CaddyServiceManager) (env : Env) (w : World) (p : string) :
  p <> main_caddyfile -> p <> backup_path env -> p <> temp_file_path env ->
  fs (update_caddy_configuration self env w).2 !! p = fs w !! p.
Proof.
  intros Hmain Hbackup Htmp.
  destruct (cycle_outcome self env w) as (F2 & Hframe & Hout).
  apply (f_equal snd) in Hout. cbn [snd] in Hout. rewrite Hout. clear Hout.
  specialize (Hframe p Htmp).
  destruct (get_services_from_netbox env w).1; [done|]. cbn zeta.
  destruct (run_ok (validate_run env)); cbn [negb]; [|done].
  destruct (write_result env) as [|e [partial|]];
    destruct (fs w !! main_caddyfile) as [c|];
    try destruct (run_ok (reload_run env));
    by simplify_map_eq.
Qed.


(** X8. A cycle returns [True] exactly when NetBox gave services, the
    checker accepted the candidate, the Caddyfile was written and the reload
    succeeded; the Caddyfile then holds the document rendered in this
    cycle. *)
Theorem update_succeeds_iff_every_step_does
        (self : CaddyServiceManager) (env : Env) (w : World) :
  ((update_caddy_configuration self env w).1 = true <->
   (get_services_from_netbox env w).1 <> [] /\
   run_ok (validate_run env) = true /\
   write_result env = Written /\
   run_ok (reload_run env) = true) /\
  ((update_caddy_configuration self env w).1 = true ->
   fs (update_caddy_configuration self env w).2 !! main_caddyfile
   = Some (generate_main_caddyfile self env (get_services_from_netbox env w).1)).
Proof.
  assert (Hiff : (update_caddy_configuration self env w).1 = true <->
                 (get_services_from_netbox env w).1 <> [] /\
                 run_ok (validate_run env) = true /\
                 write_result env = Written /\
                 run_ok (reload_run env) = true).
  { rewrite cycle_result.
    destruct (get_services_from_netbox env w).1 as [|s l];
      [split; [done | by intros [? _]]|].
    destruct (run_ok (validate_run env)); [|split; [done | by intros (_ & ? & _)]].
    destruct (write_result env); [|split; [done | by intros (_ & _ & ? & _)]].
    destruct (run_ok (reload_run env)); [done|].
    split; [done | by intros (_ & _ & _ & ?)]. }
  split; [exact Hiff|].
  intros (Hs & Hv & Hw & Hr)%Hiff. rewrite cycle_active_config, Hv, Hw, Hr.
  by destruct (get_services_from_netbox env w).1.
Qed.

(** X9. A Caddyfile that is in place before a cycle is never lost: when the
    cycle returns [False], whatever failed (the fetch, the checker, the
    write, the reload), the Caddyfile holds what it held before; when the
    cycle returns [True], the backup of this cycle holds it. *)
Theorem previous_config_survives_cycle
        (self : CaddyServiceManager) (env : Env) (w : World) (c : string) :
  fs w !! main_caddyfile = Some c ->
  ((update_caddy_configuration self env w).1 = false ->
   fs (update_caddy_configuration self env w).2 !! main_caddyfile = Some c) /\
  ((update_caddy_configuration self env w).1 = true ->
   fs (update_caddy_configuration self env w).2 !! backup_path env = Some c).
Proof.
  intros Hc. split.
  - rewrite cycle_result, cycle_active_config, Hc.
    destruct (get_services_from_netbox env w).1; [done|].
    destruct (run_ok (validate_run env)); [|done].
    destruct (write_result env); [|done].
    by destruct (run_ok (reload_run env)).
  - intros Htrue.
    destruct (cycle_outcome self env w) as (F2 & _ & Hout).
    rewrite cycle_result in Htrue.
    apply (f_equal snd) in Hout. cbn [snd] in Hout. rewrite Hout, Hc.
    pose proof (backup_path_not_main env) as Hne.
    destruct (get_services_from_netbox env w).1; [done|]. cbn zeta.
    destruct (run_ok (validate_run env)); [|done].
    destruct (write_result env); [|done].
    destruct (run_ok (reload_run env)); [|done].
    by simplify_map_eq.
Qed.

Lemma previous_config_survives_cycle_witness :
  ((update_caddy_configuration
      Sample.self SampleMore.env_write_failed Sample.world_running).1 = false ->
   fs (update_caddy_configuration
         Sample.self SampleMore.env_write_failed Sample.world_running).2
     !! main_caddyfile = Some "# previous Caddyfile") /\
  ((update_caddy_configuration
      Sample.self SampleMore.env_write_failed Sample.world_running).1 = true ->
   fs (update_caddy_configuration
         Sample.self SampleMore.env_write_failed Sample.world_running).2
     !! backup_path SampleMore.env_write_failed = Some "# previous Caddyfile").
Proof.
  apply (previous_config_survives_cycle
           Sample.self SampleMore.env_write_failed Sample.world_running).
  reflexivity.
Defined.

(** The failed write of the sample does return [False]. *)
Example write_failure_returns_false :
  (update_caddy_configuration
     Sample.self SampleMore.env_write_failed Sample.world_running).1 = false.
Proof. reflexivity. Qed.

(** X10. A cycle changes no file other than the Caddyfile, the backup of
    this cycle and the validator's temporary file: service files, earlier
    backups and everything else are as they were. *)
Theorem update_touches_three_paths
        (self : CaddyServiceManager) (env : Env) (w : World) (p : string) :
  p <> main_caddyfile -> p <> backup_path env -> p <> temp_file_path env ->
  fs (update_caddy_configuration self env w).2 !! p = fs w !! p.
Proof. apply cycle_frame. Qed.

Lemma update_touches_three_paths_witness :
  fs (update_caddy_configuration
        Sample.self Sample.env_ok SampleMore.world_with_hosts).2 !! "/etc/hosts"
  = fs SampleMore.world_with_hosts !! "/etc/hosts".
Proof.
  apply (update_touches_three_paths
           Sample.self Sample.env_ok SampleMore.world_with_hosts "/etc/hosts").
  - vm_compute. discriminate.
  - vm_compute. discriminate.
  - vm_compute. discriminate.
Defined.

(** X11. [backup_current_config] copies an existing Caddyfile to the backup
    path of the moment, over whatever is there, returns that path and
    changes no other file; without a Caddyfile it returns the empty string
    and changes nothing. *)
Theorem backup_current_config_spec (env : Env) (w : World) :
  (forall c, fs w !! main_caddyfile = Some c ->
             (backup_current_config env w).1 = backup_path env /\
             fs (backup_current_config env w).2 !! backup_path env = Some c /\
             forall p, p <> backup_path env ->
                       fs (backup_current_config env w).2 !! p = fs w !! p) /\
  (fs w !! main_caddyfile = None ->
   backup_current_config env w = (EmptyString, w)).
Proof.
  split.
  - intros c Hc. rewrite (backup_run_present env w c Hc). cbn [fst snd fs].
    repeat split; [apply lookup_insert_eq|].
    intros p Hp. by apply lookup_insert_ne.
  - apply backup_run_absent.
Qed.






(** X13. [main --validate] exits with 1 and does nothing when there is no
    Caddyfile; otherwise it exits with 0 exactly when the checker accepts
    the Caddyfile, which it leaves as it is. *)
Theorem main_validate_spec (self : CaddyServiceManager) (env : Env) (w : World) :
  (fs w !! main_caddyfile = None -> main self env ArgValidate w = (1, w)) /\
  (forall config,
      fs w !! main_caddyfile = Some config ->
      (main self env ArgValidate w).1
      = (if run_ok (validate_run env) then 0 else 1) /\
      fs (main self env ArgValidate w).2 !! main_caddyfile = Some config).
Proof.
  unfold main, bind, read_text. split.
  - by intros ->.
  - intros config Hc. rewrite Hc.
    pose proof (validate_result env config w) as Hres.
    pose proof (validate_keeps_active_config env config w) as Hkeep.
    destruct (validate_caddy_config env config w) as [valid w2].
    cbn [fst snd ret] in *. rewrite Hres. split; [done|]. by rewrite Hkeep.
Qed.

End ReconcilerMore.

(** ** More on the discovery run *)

Module DiscoveryMoreSpec.
Import Discovery DiscoveryMore DiscoverySpec.

Lemma update_netbox_ip_result (env : Env) (host : Host) (w : World) :
  (update_netbox_ip env host w).1 = upsert_ok env host.
Proof.
  destruct (upsert_ok env host) eqn:Hok.
  - by destruct (update_netbox_ip_accepted env host w Hok) as (r & _ & _ & ->).
  - by rewrite update_netbox_ip_refused.
Qed.

Lemma sync_to_dns_result (env : Env) (host : Host) (w : World) :
  (sync_to_dns env host w).1 = dns_ok env host.
Proof.
  unfold sync_to_dns, dns_ok, dns_name_of.
  destruct (technitium_token env) as [[|? ?]|]; try done.
  destruct (hostname host) as [[|? ?]|]; try done.
  destruct (dns_add env _ _) as [code|e]; [|done].
  by destruct (code =? 200).
Qed.

(** The report after one more host. *)
Lemma process_host_report (env : Env) (host : Host) (report : Report) (w : World) :
  (process_host env host report w).1
  = {| timestamp := timestamp report;
       networks_scanned := networks_scanned report;
       total_hosts := total_hosts report + 1;
       active_hosts := active_hosts report + 1;
       new_hosts := new_hosts report;
       updated_hosts := updated_hosts report + (if upsert_ok env host then 1 else 0);
       dns_synced := dns_synced report + (if dns_ok env host then 1 else 0);
       services_discovered :=
         services_discovered report + Z.of_nat (length (deep_scan env host));
       duration_seconds := duration_seconds report;
       status := status report |}.
Proof.
  unfold process_host, deep_scan, bind.
  destruct (interesting host).
  - pose proof (update_netbox_ip_result env
                  (set_services host (service_scan env (ip host))) w) as Hu.
    destruct (update_netbox_ip env _ w) as [updated w1].
    pose proof (sync_to_dns_result env
                  (set_services host (service_scan env (ip host))) w1) as Hs.
    destruct (sync_to_dns env _ w1) as [synced w2].
    cbn [fst] in Hu, Hs. subst. reflexivity.
  - pose proof (update_netbox_ip_result env host w) as Hu.
    destruct (update_netbox_ip env host w) as [updated w1].
    pose proof (sync_to_dns_result env host w1) as Hs.
    destruct (sync_to_dns env host w1) as [synced w2].
    cbn [fst] in Hu, Hs. subst. cbn [fst ret length]. f_equal; lia.
Qed.

Lemma process_hosts_report (env : Env) (hosts : list Host) (report : Report) (w : World) :
  (process_hosts env hosts report w).1
  = {| timestamp := timestamp report;
       networks_scanned := networks_scanned report;
       total_hosts := total_hosts report + Z.of_nat (length hosts);
       active_hosts := active_hosts report + Z.of_nat (length hosts);
       new_hosts := new_hosts report;
       updated_hosts :=
         updated_hosts report + Z.of_nat (length (List.filter (upsert_ok env) hosts));
       dns_synced :=
         dns_synced report + Z.of_nat (length (List.filter (dns_ok env) hosts));
       services_discovered :=
         services_discovered report
         + Z.of_nat (length (flat_map (deep_scan env) hosts));
       duration_seconds := duration_seconds report;
       status := status report |}.
Proof.
  revert report w. induction hosts as [|host rest IH]; intros report w.
  - cbn. rewrite !Z.add_0_r. by destruct report.
  - cbn [process_hosts]. unfold bind.
    pose proof (process_host_report env host report w) as Hhost.
    destruct (process_host env host report w) as [report1 w1].
    cbn [fst] in Hhost. rewrite IH, Hhost.
    cbn [timestamp networks_scanned total_hosts active_hosts new_hosts
         updated_hosts dns_synced services_discovered duration_seconds status
         length List.filter flat_map].
    rewrite length_app.
    destruct (upsert_ok env host), (dns_ok env host); cbn [length]; f_equal; lia.
Qed.

(** X14. What [run_discovery] reports.  Without a connection to NetBox, or
    without a site, the run fails with its reason and writes nothing.
    Otherwise it completes, whatever the hosts' requests come to:
    [total_hosts] and [active_hosts] are the number of hosts found,
    [updated_hosts] and [dns_synced] count the hosts NetBox and the DNS
    server accepted, [services_discovered] counts the services of the hosts
    that were scanned, and [new_hosts] stays 0. *)
Theorem run_discovery_report (env : Env) (w : World) :
  match (run_discovery env w).1 with
  | Failed reason =>
      (run_discovery env w).2 = w /\
      (connection_ok env = false /\ reason = "netbox_connection_failed" \/
       connection_ok env = true /\ site_id env = None /\
       reason = "site_creation_failed")
  | Finished report =>
      connection_ok env = true /\ is_Some (site_id env) /\
      report
      = {| timestamp := now env;
           networks_scanned := discovery_networks env;
           total_hosts := Z.of_nat (length (cycle_hosts env));
           active_hosts := Z.of_nat (length (cycle_hosts env));
           new_hosts := 0;
           updated_hosts :=
             Z.of_nat (length (List.filter (upsert_ok env) (cycle_hosts env)));
           dns_synced :=
             Z.of_nat (length (List.filter (dns_ok env) (cycle_hosts env)));
           services_discovered :=
             Z.of_nat (length (flat_map (deep_scan env) (cycle_hosts env)));
           duration_seconds := Some (elapsed env);
           status := Some "completed" |}
  end.
Proof.
  unfold run_discovery.
  destruct (connection_ok env); cbn [negb]; [|by split; [|left]].
  destruct (site_id env) as [site|]; [|by split; [|right]].
  unfold bind. rewrite process_networks_hosts. fold (cycle_hosts env).
  pose proof (process_hosts_report env (cycle_hosts env)
                (generate_network_report env) w) as Hreport.
  destruct (process_hosts env (cycle_hosts env) _ w) as [report w'].
  cbn [fst] in Hreport. subst report. cbn. by eauto.
Qed.


(** X15. [sync_to_dns] sends nothing and changes nothing without a token or
    without a host name; it returns [True] exactly when the DNS server
    answers 200, and then the record written is the first label of the host
    name under doofus.co, pointing at the host's address.  NetBox's records
    are never touched. *)
Theorem sync_to_dns_spec (env : Env) (host : Host) (w : World) :
  (sync_to_dns env host w).1 = dns_ok env host /\
  netbox_ips (sync_to_dns env host w).2 = netbox_ips w /\
  (truthy (technitium_token env) = false \/ truthy (hostname host) = false ->
   sync_to_dns env host w = (false, w)) /\
  (dns_ok env host = false -> (sync_to_dns env host w).2 = w) /\
  (forall name,
      dns_ok env host = true -> hostname host = Some name ->
      dns_records (sync_to_dns env host w).2
      = <[dns_name_of name := ip host]> (dns_records w)).
Proof.
  split; [apply sync_to_dns_result|]. split; [apply sync_to_dns_frame|].
  unfold sync_to_dns, dns_ok, dns_name_of, truthy.
  destruct (technitium_token env) as [[|? ?]|];
    try (repeat split; try done; tauto).
  destruct (hostname host) as [[|? ?]|];
    try (repeat split; try done; tauto).
  destruct (dns_add env _ _) as [code|e]; [destruct (code =? 200)|];
    repeat split; try done;
    try (by intros [?|?]); by intros name _ [= <-].
Qed.

(** X16. The record name keeps the first label of the host name only: two
    hosts whose names start with the same label, whatever follows it, are
    written to the same record, and the one synced last has it. *)
Theorem dns_records_collide_on_first_label
        (env : Env) (w : World) (host1 host2 : Host) (name1 name2 : string) :
  hostname host1 = Some name1 ->
  hostname host2 = Some name2 ->
  Str.before_char "." name1 = Str.before_char "." name2 ->
  dns_ok env host2 = true ->
  dns_records (sync_to_dns env host2 (sync_to_dns env host1 w).2).2
    !! dns_name_of name1
  = Some (ip host2).
Proof.
  intros H1 H2 Hlabel Hok2.
  destruct (sync_to_dns_spec env host2 (sync_to_dns env host1 w).2)
    as (_ & _ & _ & _ & Hwrite).
  rewrite (Hwrite name2 Hok2 H2). unfold dns_name_of. rewrite Hlabel.
  apply lookup_insert_eq.
Qed.

Lemma dns_records_collide_on_first_label_witness :
  dns_records (sync_to_dns Sample.discovery_env SampleMore.nas_office
                 (sync_to_dns Sample.discovery_env SampleMore.nas_lan
                    Sample.discovery_world).2).2
    !! dns_name_of "nas.lan"
  = Some "10.203.7.40".
Proof.
  apply (dns_records_collide_on_first_label
           Sample.discovery_env Sample.discovery_world
           SampleMore.nas_lan SampleMore.nas_office
           "nas.lan" "nas.office.example").
  - reflexivity.
  - reflexivity.
  - reflexivity.
  - reflexivity.
Defined.

(** X17. [update_netbox_ip] returns [True] exactly when NetBox answers the
    write with 200 or 201.  It never touches the DNS records nor the record
    of another address; when it returns [False] nothing has changed; when it
    returns [True] the record of the host's address is active, carries the
    time the host was seen, the day of it in the description, and the host
    name when the host has one. *)
Theorem update_netbox_ip_spec (env : Env) (host : Host) (w : World) :
  (update_netbox_ip env host w).1 = upsert_ok env host /\
  dns_records (update_netbox_ip env host w).2 = dns_records w /\
  (forall a, a <> ip host ->
             netbox_ips (update_netbox_ip env host w).2 !! a = netbox_ips w !! a) /\
  (upsert_ok env host = false -> (update_netbox_ip env host w).2 = w) /\
  (upsert_ok env host = true ->
   exists r,
     netbox_ips (update_netbox_ip env host w).2 !! ip host = Some r /\
     nb_address r = ip host /\
     nb_status r = "active" /\
     cf_last_seen r = last_seen host /\
     cf_discovery_method r = "network_scan" /\
     nb_description r = "Auto-discovered on " +:+ Str.take 10 (last_seen host) /\
     (truthy (hostname host) = true -> nb_dns_name r = hostname host)).
Proof.
  split; [apply update_netbox_ip_result|].
  unfold update_netbox_ip, upsert_ok, accepted.
  destruct (netbox_write env (netbox_data_of host)) as [code|e];
    [|repeat split; done].
  destruct ((code =? 200) || (code =? 201)); [|repeat split; done].
  cbn [fst snd netbox_ips dns_records]. repeat split; try done.
  - intros a Ha. by apply lookup_insert_ne.
  - intros _. rewrite lookup_insert_eq.
    destruct (netbox_ips w !! ip host) as [old|]; eexists; split; try done;
      cbn; repeat split; try done;
      by destruct (hostname host) as [[|? ?]|].
Qed.


(** X19. A host is given the service scan exactly when its address has a
    "1" or a "3" in it; the test for "10" adds nothing. *)
Theorem interesting_spec (host : Host) :
  interesting host = Str.contains "1" (ip host) || Str.contains "3" (ip host).
Proof.
  unfold interesting. cbn [existsb]. rewrite orb_false_r.
  destruct (Str.contains "1" (ip host)) eqn:H1; [done|]. cbn [orb].
  destruct (Str.contains "10" (ip host)) eqn:H10; [|apply orb_false_r].
  apply contains_10_contains_1 in H10. congruence.
Qed.

(** X22. After a run that completes, every host whose record NetBox
    accepted has a record under its address, however many other hosts
    failed, and an address that no accepted host carries has the record it
    had before, or none. *)
Theorem run_discovery_records_accepted_hosts (env : Env) (w : World) :
  connection_ok env = true ->
  is_Some (site_id env) ->
  (forall h, h ∈ cycle_hosts env -> upsert_ok env h = true ->
             recorded (run_discovery env w).2 (ip h)) /\
  (forall a, (forall h, h ∈ cycle_hosts env -> upsert_ok env h = true -> ip h <> a) ->
             netbox_ips (run_discovery env w).2 !! a = netbox_ips w !! a).
Proof.
  intros Hconn [site Hsite].
  unfold run_discovery. rewrite Hconn, Hsite. cbn [negb]. unfold bind.
  rewrite process_networks_hosts. fold (cycle_hosts env).
  destruct (process_hosts_spec env (cycle_hosts env)
              (generate_network_report env) w) as (_ & _ & _ & Hnew & Hframe).
  by destruct (process_hosts env _ _ w) as [report w'].
Qed.

Lemma run_discovery_records_accepted_hosts_witness :
  (forall h, h ∈ cycle_hosts Sample.discovery_env ->
             upsert_ok Sample.discovery_env h = true ->
             recorded (run_discovery Sample.discovery_env
                                     Sample.discovery_world).2 (ip h)) /\
  (forall a, (forall h, h ∈ cycle_hosts Sample.discovery_env ->
                        upsert_ok Sample.discovery_env h = true -> ip h <> a) ->
             netbox_ips (run_discovery Sample.discovery_env
                                       Sample.discovery_world).2 !! a
             = netbox_ips Sample.discovery_world !! a).
Proof.
  apply (run_discovery_records_accepted_hosts
           Sample.discovery_env Sample.discovery_world).
  - reflexivity.
  - by eexists.
Defined.

End DiscoveryMoreSpec.

(** ** The network prober *)

Module ProberSpec.
Import Discovery Prober.

Lemma scan_hosts_spec (env : Env) (hosts : list NmapHost) (discovered : list Host) :
  scan_hosts env hosts discovered
  = discovered ++ map (host_info env)
                      (List.filter (fun h => String.eqb (nm_state h) "up") hosts).
Proof.
  revert discovered. induction hosts as [|h hosts IH]; intros discovered.
  - cbn. by rewrite app_nil_r.
  - cbn [scan_hosts List.filter]. destruct (String.eqb (nm_state h) "up").
    + rewrite IH. cbn [map]. by rewrite <- app_assoc.
    + apply IH.
Qed.

Lemma lstrip_char_startswith (c : ascii) (s : string) :
  Str.startswith (String c EmptyString) (lstrip_char c s) = false.
Proof.
  induction s as [|a s IH]; [reflexivity|]. cbn [lstrip_char].
  destruct (Ascii.eqb a c) eqn:Hac; [exact IH|].
  cbn [Str.startswith]. by rewrite Ascii.eqb_sym, Hac.
Qed.

(** After [rstrip('.')] no dot is left at the end. *)
Lemma rstrip_char_endswith (c : ascii) (s : string) :
  Str.endswith (String c EmptyString) (rstrip_char c s) = false.
Proof.
  unfold Str.endswith, rstrip_char. rewrite rev_involutive.
  apply lstrip_char_startswith.
Qed.

(** X20. [perform_network_scan] returns nothing when the scan raises;
    otherwise it returns, in nmap's order, one entry per host that is up and
    none for the others.  An entry has no services yet, has a vendor only
    when it has a MAC address, and its host name does not end with a dot. *)
Theorem perform_network_scan_spec (env : Env) (network : string) :
  (ping_scan env network = None -> perform_network_scan env network = []) /\
  (forall hosts,
      ping_scan env network = Some hosts ->
      map ip (perform_network_scan env network)
      = map nm_host (List.filter (fun h => String.eqb (nm_state h) "up") hosts)) /\
  Forall (fun h => services h = [] /\
                   (is_Some (vendor h) -> is_Some (mac_address h)) /\
                   (forall name, hostname h = Some name ->
                                 Str.endswith "." name = false))
         (perform_network_scan env network).
Proof.
  unfold perform_network_scan.
  destruct (ping_scan env network) as [hosts|]; [|by repeat split].
  rewrite scan_hosts_spec. cbn [app]. repeat split; [done| |].
  - intros ? [= <-]. rewrite map_map. reflexivity.
  - apply Forall_forall. intros h [nh [-> _]]%list_elem_of_fmap.
    unfold host_info. cbn. repeat split.
    + destruct (nm_mac nh); [by eauto|]. by intros [? ?].
    + intros name. destruct (ptr_lookup env (nm_host nh)); [|done].
      intros [= <-]. apply (rstrip_char_endswith ".").
Qed.

Lemma scan_ports_spec (protocol : string) (ports : list (Z * PortInfo))
      (services : list ScannedService) :
  scan_ports protocol ports services
  = services
    ++ map (fun entry => service_of protocol entry.1 entry.2)
           (List.filter (fun entry => String.eqb (state entry.2) "open") ports).
Proof.
  revert services. induction ports as [|[port info] ports IH]; intros services.
  - cbn. by rewrite app_nil_r.
  - cbn [scan_ports List.filter snd]. destruct (String.eqb (state info) "open").
    + rewrite IH. cbn [map fst snd]. by rewrite <- app_assoc.
    + apply IH.
Qed.

Lemma scan_protocols_spec (protocols : list (string * list (Z * PortInfo)))
      (services : list ScannedService) :
  scan_protocols protocols services
  = services
    ++ flat_map (fun group => scan_ports group.1 group.2 []) protocols.
Proof.
  revert services. induction protocols as [|[protocol ports] protocols IH];
    intros services.
  - cbn. by rewrite app_nil_r.
  - cbn [scan_protocols flat_map fst snd].
    rewrite IH, (scan_ports_spec protocol ports services),
      (scan_ports_spec protocol ports []).
    cbn [app]. by rewrite <- app_assoc.
Qed.

(** X21. [perform_service_scan] reports exactly the ports nmap found open:
    a service is in the result if and only if nmap lists its port, under
    its protocol, with state "open"; a missing name is reported as
    "unknown".  When the scan raises or the address is not among nmap's
    hosts, the result is empty. *)
Theorem perform_service_scan_reports_open_ports
        (env : Env) (ip : string) (s : ScannedService) :
  In s (perform_service_scan env ip) <->
  exists protocols protocol ports port port_info,
    port_scan env ip = Some (Some protocols) /\
    In (protocol, ports) protocols /\
    In (port, port_info) ports /\
    state port_info = "open" /\
    s = service_of protocol port port_info.
Proof.
  unfold perform_service_scan.
  destruct (port_scan env ip) as [[protocols|]|].
  - rewrite scan_protocols_spec. cbn [app]. rewrite in_flat_map. split.
    + intros ([protocol ports] & Hgroup & Hin). cbn [fst snd] in Hin.
      rewrite scan_ports_spec in Hin. cbn [app] in Hin.
      apply in_map_iff in Hin as ([port info] & <- & Hfilter).
      apply filter_In in Hfilter as [Hport Hopen]. cbn [fst snd] in *.
      apply String.eqb_eq in Hopen.
      by exists protocols, protocol, ports, port, info.
    + intros (? & protocol & ports & port & info & [= <-] & Hgroup & Hport
              & Hopen & ->).
      exists (protocol, ports). split; [done|]. cbn [fst snd].
      rewrite scan_ports_spec. cbn [app]. apply in_map_iff.
      exists (port, info). split; [done|]. apply filter_In. split; [done|].
      cbn [snd]. by apply String.eqb_eq.
  - split; [done|]. by intros (? & ? & ? & ? & ? & ? & _).
  - split; [done|]. by intros (? & ? & ? & ? & ? & ? & _).
Qed.

End ProberSpec.
